(** * IEC 60870-5-104 session engine of pydatacoll: shallow embedding

    The development follows [pydatacoll/protocols/iec104/device.py]
    (class [IEC104Device]) and the term-creation handler of
    [pydatacoll/api_server.py].  Every method of the device becomes a
    function on an explicit [Device] record; the asyncio event loop is a
    list of scheduled callbacks, and a timer handle is the index of its
    entry, so that cancelling a handle is visible to the loop. *)

From Stdlib Require Import ZArith Lia String Ascii.
From stdpp Require Import base numbers option list strings gmap.

Local Open Scope Z_scope.

(** ** Frames *)

Inductive UFrame :=
  | STARTDT_ACT | STARTDT_CON | STOPDT_ACT | STOPDT_CON | TESTFR_ACT | TESTFR_CON.

(** First control field of a decoded frame: a [UFrame] member, the
    string ['S'], or the send sequence number of an I-frame. *)
Inductive Apci1 :=
  | APCI_U (u : UFrame)
  | APCI_S
  | APCI_I (n : Z).

#[global] Instance UFrame_eq_dec : EqDecision UFrame.
Proof. solve_decision. Defined.

#[global] Instance Apci1_eq_dec : EqDecision Apci1.
Proof. solve_decision. Defined.

(** Modelled from the spec: the enumerations [IECParam], [TYP] and [Cause]
    live in [frame.py], which is not among the sources.  The numbers are
    those of sections 3, 4.D and 6 of the specification; the two range
    bounds [M_EP_TD_1] and [C_SE_TC_1], which the specification names
    without a number, carry their IEC 60870-5-104 type identifiers. *)
Module IECParam.
Definition T0 : Z := 30.
Definition T1 : Z := 15.
Definition T2 : Z := 10.
Definition T3 : Z := 20.
Definition K : Z := 12.
Definition W : Z := 8.
End IECParam.

Module TYP.
Definition M_SP_NA_1 : Z := 1.
Definition M_ME_NA_1 : Z := 9.
Definition M_IT_NA_1 : Z := 15.
Definition M_SP_TB_1 : Z := 30.
Definition M_EP_TD_1 : Z := 38.
Definition C_SC_NA_1 : Z := 45.
Definition C_SE_TC_1 : Z := 63.
Definition C_IC_NA_1 : Z := 100.
Definition C_CI_NA_1 : Z := 101.
Definition C_RD_NA_1 : Z := 102.
Definition C_CS_NA_1 : Z := 103.
End TYP.

Module Cause.
Definition spont : Z := 3.
Definition req : Z := 5.
Definition act : Z := 6.
Definition actcon : Z := 7.
Definition actterm : Z := 10.
Definition introgen : Z := 20.
Definition reqcogen : Z := 37.
End Cause.

(** One information object.  The attributes that only some types carry
    ([hasattr] in the source) are options; times are microseconds. *)
Record DataElem := mkDataElem {
  Address : option Z;
  Value : Z;
  IV : option Z;
  SE : option Z;
  CP56Time2a : option Z;
  CP24Time2a : option Z
}.

Record Asdu := mkAsdu {
  asdu_TYP : Z;
  asdu_SQ : Z;
  asdu_SQ_COUNT : Z;
  asdu_Cause : Z;
  StartAddress : option Z;
  data : list DataElem
}.

(** A decoded frame.  Only an I-frame has an ASDU. *)
Inductive Frame :=
  | FrameU (u : UFrame)
  | FrameS (rsn : Z)
  | FrameI (ssn rsn : Z) (asdu : Asdu).

Definition APCI1 (f : Frame) : Apci1 :=
  match f with
  | FrameU u => APCI_U u
  | FrameS _ => APCI_S
  | FrameI n _ _ => APCI_I n
  end.

Definition APCI2 (f : Frame) : Z :=
  match f with
  | FrameU _ => 0
  | FrameS r => r
  | FrameI _ r _ => r
  end.

Definition ASDU (f : Frame) : option Asdu :=
  match f with
  | FrameI _ _ a => Some a
  | _ => None
  end.

(** Modelled from the spec: [iec_104.init_frame] of [frame.py] (not among
    the sources), in its three call shapes: a U-frame of a given kind, an
    S-frame carrying [rsn], and an I-frame of a given type and cause with
    one empty information object. *)
Definition empty_elem : DataElem :=
  {| Address := Some 0; Value := 0; IV := None; SE := None;
     CP56Time2a := None; CP24Time2a := None |}.

Definition init_frame_u (u : UFrame) : Frame := FrameU u.
Definition init_frame_s (rsn : Z) : Frame := FrameS rsn.
Definition init_frame_i (ssn rsn typ cause : Z) : Frame :=
  FrameI ssn rsn {| asdu_TYP := typ; asdu_SQ := 0; asdu_SQ_COUNT := 1; asdu_Cause := cause;
                    StartAddress := None; data := [empty_elem] |}.

(** ** The event loop *)

Inductive Action :=
  | ActReconnect
  | ActReceive
  | ActRunTask
  | ActOnTimer1 | ActOnTimer2 | ActOnTimer3
  | ActSendFrame (f : Frame)
  | ActCheckToSend (f : Frame)
  | ActSaveFrame (f : Frame) (send : bool).

(** An entry of the loop: [call_later delay callback], [call_soon] and
    [create_task] (both with delay 0). *)
Record Scheduled := mkScheduled {
  sch_delay : Z;
  sch_action : Action;
  sch_cancelled : bool
}.

Definition cancel_entry (s : Scheduled) : Scheduled :=
  {| sch_delay := sch_delay s; sch_action := sch_action s; sch_cancelled := true |}.

(** The stream writer of the open connection.  [wr_broken] is the
    environment's choice that writing or draining raises. *)
Record Writer := mkWriter {
  wr_closed : bool;
  wr_broken : bool
}.

Inductive Method := MCall | MCtrl | MData.

(** ** Session state: the attributes of [IEC104Device] *)

#[projections(primitive)]
Record Device := mkDevice {
  ssn : Z;
  rsn : Z;
  k : Z;
  w : Z;
  send_list : list Frame;
  last_call_all_time_begin : option Z;
  last_call_all_time_end : option Z;
  coll_interval : Z;
  connect_retry_count : Z;
  user_canceled : bool;
  writer : option Writer;
  reconnect_handler : option nat;
  task_handler : option nat;
  receive_handler : option nat;
  t1 : option nat;
  t2 : option nat;
  t3 : option nat;
  connected : bool;
  loop : list Scheduled;
  wire : list Frame;
  processed : list (Method * gset (Z * Z * Z))
}.

(** [loop] is the io_loop shared with the device, [wire] the frames handed
    to [writer.write] in order, [processed] the calls of
    [BaseDevice.process_data]; [connected] is the status flag kept by
    [BaseDevice.change_device_status]. *)

Definition set_ssn (v : Z) (st : Device) : Device :=
  {| ssn := v; rsn := rsn st; k := k st; w := w st; send_list := send_list st;
     last_call_all_time_begin := last_call_all_time_begin st;
     last_call_all_time_end := last_call_all_time_end st; coll_interval := coll_interval st;
     connect_retry_count := connect_retry_count st; user_canceled := user_canceled st;
     writer := writer st; reconnect_handler := reconnect_handler st;
     task_handler := task_handler st; receive_handler := receive_handler st; t1 := t1 st;
     t2 := t2 st; t3 := t3 st; connected := connected st; loop := loop st; wire := wire st;
     processed := processed st |}.

Definition set_rsn (v : Z) (st : Device) : Device :=
  {| ssn := ssn st; rsn := v; k := k st; w := w st; send_list := send_list st;
     last_call_all_time_begin := last_call_all_time_begin st;
     last_call_all_time_end := last_call_all_time_end st; coll_interval := coll_interval st;
     connect_retry_count := connect_retry_count st; user_canceled := user_canceled st;
     writer := writer st; reconnect_handler := reconnect_handler st;
     task_handler := task_handler st; receive_handler := receive_handler st; t1 := t1 st;
     t2 := t2 st; t3 := t3 st; connected := connected st; loop := loop st; wire := wire st;
     processed := processed st |}.

Definition set_k (v : Z) (st : Device) : Device :=
  {| ssn := ssn st; rsn := rsn st; k := v; w := w st; send_list := send_list st;
     last_call_all_time_begin := last_call_all_time_begin st;
     last_call_all_time_end := last_call_all_time_end st; coll_interval := coll_interval st;
     connect_retry_count := connect_retry_count st; user_canceled := user_canceled st;
     writer := writer st; reconnect_handler := reconnect_handler st;
     task_handler := task_handler st; receive_handler := receive_handler st; t1 := t1 st;
     t2 := t2 st; t3 := t3 st; connected := connected st; loop := loop st; wire := wire st;
     processed := processed st |}.

Definition set_w (v : Z) (st : Device) : Device :=
  {| ssn := ssn st; rsn := rsn st; k := k st; w := v; send_list := send_list st;
     last_call_all_time_begin := last_call_all_time_begin st;
     last_call_all_time_end := last_call_all_time_end st; coll_interval := coll_interval st;
     connect_retry_count := connect_retry_count st; user_canceled := user_canceled st;
     writer := writer st; reconnect_handler := reconnect_handler st;
     task_handler := task_handler st; receive_handler := receive_handler st; t1 := t1 st;
     t2 := t2 st; t3 := t3 st; connected := connected st; loop := loop st; wire := wire st;
     processed := processed st |}.

Definition set_send_list (v : list Frame) (st : Device) : Device :=
  {| ssn := ssn st; rsn := rsn st; k := k st; w := w st; send_list := v;
     last_call_all_time_begin := last_call_all_time_begin st;
     last_call_all_time_end := last_call_all_time_end st; coll_interval := coll_interval st;
     connect_retry_count := connect_retry_count st; user_canceled := user_canceled st;
     writer := writer st; reconnect_handler := reconnect_handler st;
     task_handler := task_handler st; receive_handler := receive_handler st; t1 := t1 st;
     t2 := t2 st; t3 := t3 st; connected := connected st; loop := loop st; wire := wire st;
     processed := processed st |}.

Definition set_last_call_all_time_begin (v : option Z) (st : Device) : Device :=
  {| ssn := ssn st; rsn := rsn st; k := k st; w := w st; send_list := send_list st;
     last_call_all_time_begin := v; last_call_all_time_end := last_call_all_time_end st;
     coll_interval := coll_interval st; connect_retry_count := connect_retry_count st;
     user_canceled := user_canceled st; writer := writer st;
     reconnect_handler := reconnect_handler st; task_handler := task_handler st;
     receive_handler := receive_handler st; t1 := t1 st; t2 := t2 st; t3 := t3 st;
     connected := connected st; loop := loop st; wire := wire st; processed := processed st |}.

Definition set_last_call_all_time_end (v : option Z) (st : Device) : Device :=
  {| ssn := ssn st; rsn := rsn st; k := k st; w := w st; send_list := send_list st;
     last_call_all_time_begin := last_call_all_time_begin st; last_call_all_time_end := v;
     coll_interval := coll_interval st; connect_retry_count := connect_retry_count st;
     user_canceled := user_canceled st; writer := writer st;
     reconnect_handler := reconnect_handler st; task_handler := task_handler st;
     receive_handler := receive_handler st; t1 := t1 st; t2 := t2 st; t3 := t3 st;
     connected := connected st; loop := loop st; wire := wire st; processed := processed st |}.

Definition set_connect_retry_count (v : Z) (st : Device) : Device :=
  {| ssn := ssn st; rsn := rsn st; k := k st; w := w st; send_list := send_list st;
     last_call_all_time_begin := last_call_all_time_begin st;
     last_call_all_time_end := last_call_all_time_end st; coll_interval := coll_interval st;
     connect_retry_count := v; user_canceled := user_canceled st; writer := writer st;
     reconnect_handler := reconnect_handler st; task_handler := task_handler st;
     receive_handler := receive_handler st; t1 := t1 st; t2 := t2 st; t3 := t3 st;
     connected := connected st; loop := loop st; wire := wire st; processed := processed st |}.

Definition set_user_canceled (v : bool) (st : Device) : Device :=
  {| ssn := ssn st; rsn := rsn st; k := k st; w := w st; send_list := send_list st;
     last_call_all_time_begin := last_call_all_time_begin st;
     last_call_all_time_end := last_call_all_time_end st; coll_interval := coll_interval st;
     connect_retry_count := connect_retry_count st; user_canceled := v; writer := writer st;
     reconnect_handler := reconnect_handler st; task_handler := task_handler st;
     receive_handler := receive_handler st; t1 := t1 st; t2 := t2 st; t3 := t3 st;
     connected := connected st; loop := loop st; wire := wire st; processed := processed st |}.

Definition set_writer (v : option Writer) (st : Device) : Device :=
  {| ssn := ssn st; rsn := rsn st; k := k st; w := w st; send_list := send_list st;
     last_call_all_time_begin := last_call_all_time_begin st;
     last_call_all_time_end := last_call_all_time_end st; coll_interval := coll_interval st;
     connect_retry_count := connect_retry_count st; user_canceled := user_canceled st;
     writer := v; reconnect_handler := reconnect_handler st; task_handler := task_handler st;
     receive_handler := receive_handler st; t1 := t1 st; t2 := t2 st; t3 := t3 st;
     connected := connected st; loop := loop st; wire := wire st; processed := processed st |}.

Definition set_reconnect_handler (v : option nat) (st : Device) : Device :=
  {| ssn := ssn st; rsn := rsn st; k := k st; w := w st; send_list := send_list st;
     last_call_all_time_begin := last_call_all_time_begin st;
     last_call_all_time_end := last_call_all_time_end st; coll_interval := coll_interval st;
     connect_retry_count := connect_retry_count st; user_canceled := user_canceled st;
     writer := writer st; reconnect_handler := v; task_handler := task_handler st;
     receive_handler := receive_handler st; t1 := t1 st; t2 := t2 st; t3 := t3 st;
     connected := connected st; loop := loop st; wire := wire st; processed := processed st |}.

Definition set_task_handler (v : option nat) (st : Device) : Device :=
  {| ssn := ssn st; rsn := rsn st; k := k st; w := w st; send_list := send_list st;
     last_call_all_time_begin := last_call_all_time_begin st;
     last_call_all_time_end := last_call_all_time_end st; coll_interval := coll_interval st;
     connect_retry_count := connect_retry_count st; user_canceled := user_canceled st;
     writer := writer st; reconnect_handler := reconnect_handler st; task_handler := v;
     receive_handler := receive_handler st; t1 := t1 st; t2 := t2 st; t3 := t3 st;
     connected := connected st; loop := loop st; wire := wire st; processed := processed st |}.

Definition set_receive_handler (v : option nat) (st : Device) : Device :=
  {| ssn := ssn st; rsn := rsn st; k := k st; w := w st; send_list := send_list st;
     last_call_all_time_begin := last_call_all_time_begin st;
     last_call_all_time_end := last_call_all_time_end st; coll_interval := coll_interval st;
     connect_retry_count := connect_retry_count st; user_canceled := user_canceled st;
     writer := writer st; reconnect_handler := reconnect_handler st;
     task_handler := task_handler st; receive_handler := v; t1 := t1 st; t2 := t2 st;
     t3 := t3 st; connected := connected st; loop := loop st; wire := wire st;
     processed := processed st |}.

Definition set_t1 (v : option nat) (st : Device) : Device :=
  {| ssn := ssn st; rsn := rsn st; k := k st; w := w st; send_list := send_list st;
     last_call_all_time_begin := last_call_all_time_begin st;
     last_call_all_time_end := last_call_all_time_end st; coll_interval := coll_interval st;
     connect_retry_count := connect_retry_count st; user_canceled := user_canceled st;
     writer := writer st; reconnect_handler := reconnect_handler st;
     task_handler := task_handler st; receive_handler := receive_handler st; t1 := v;
     t2 := t2 st; t3 := t3 st; connected := connected st; loop := loop st; wire := wire st;
     processed := processed st |}.

Definition set_t2 (v : option nat) (st : Device) : Device :=
  {| ssn := ssn st; rsn := rsn st; k := k st; w := w st; send_list := send_list st;
     last_call_all_time_begin := last_call_all_time_begin st;
     last_call_all_time_end := last_call_all_time_end st; coll_interval := coll_interval st;
     connect_retry_count := connect_retry_count st; user_canceled := user_canceled st;
     writer := writer st; reconnect_handler := reconnect_handler st;
     task_handler := task_handler st; receive_handler := receive_handler st; t1 := t1 st;
     t2 := v; t3 := t3 st; connected := connected st; loop := loop st; wire := wire st;
     processed := processed st |}.

Definition set_t3 (v : option nat) (st : Device) : Device :=
  {| ssn := ssn st; rsn := rsn st; k := k st; w := w st; send_list := send_list st;
     last_call_all_time_begin := last_call_all_time_begin st;
     last_call_all_time_end := last_call_all_time_end st; coll_interval := coll_interval st;
     connect_retry_count := connect_retry_count st; user_canceled := user_canceled st;
     writer := writer st; reconnect_handler := reconnect_handler st;
     task_handler := task_handler st; receive_handler := receive_handler st; t1 := t1 st;
     t2 := t2 st; t3 := v; connected := connected st; loop := loop st; wire := wire st;
     processed := processed st |}.

Definition set_connected (v : bool) (st : Device) : Device :=
  {| ssn := ssn st; rsn := rsn st; k := k st; w := w st; send_list := send_list st;
     last_call_all_time_begin := last_call_all_time_begin st;
     last_call_all_time_end := last_call_all_time_end st; coll_interval := coll_interval st;
     connect_retry_count := connect_retry_count st; user_canceled := user_canceled st;
     writer := writer st; reconnect_handler := reconnect_handler st;
     task_handler := task_handler st; receive_handler := receive_handler st; t1 := t1 st;
     t2 := t2 st; t3 := t3 st; connected := v; loop := loop st; wire := wire st;
     processed := processed st |}.

Definition set_loop (v : list Scheduled) (st : Device) : Device :=
  {| ssn := ssn st; rsn := rsn st; k := k st; w := w st; send_list := send_list st;
     last_call_all_time_begin := last_call_all_time_begin st;
     last_call_all_time_end := last_call_all_time_end st; coll_interval := coll_interval st;
     connect_retry_count := connect_retry_count st; user_canceled := user_canceled st;
     writer := writer st; reconnect_handler := reconnect_handler st;
     task_handler := task_handler st; receive_handler := receive_handler st; t1 := t1 st;
     t2 := t2 st; t3 := t3 st; connected := connected st; loop := v; wire := wire st;
     processed := processed st |}.

Definition set_wire (v : list Frame) (st : Device) : Device :=
  {| ssn := ssn st; rsn := rsn st; k := k st; w := w st; send_list := send_list st;
     last_call_all_time_begin := last_call_all_time_begin st;
     last_call_all_time_end := last_call_all_time_end st; coll_interval := coll_interval st;
     connect_retry_count := connect_retry_count st; user_canceled := user_canceled st;
     writer := writer st; reconnect_handler := reconnect_handler st;
     task_handler := task_handler st; receive_handler := receive_handler st; t1 := t1 st;
     t2 := t2 st; t3 := t3 st; connected := connected st; loop := loop st; wire := v;
     processed := processed st |}.

Definition set_processed (v : list (Method * gset (Z * Z * Z))) (st : Device) : Device :=
  {| ssn := ssn st; rsn := rsn st; k := k st; w := w st; send_list := send_list st;
     last_call_all_time_begin := last_call_all_time_begin st;
     last_call_all_time_end := last_call_all_time_end st; coll_interval := coll_interval st;
     connect_retry_count := connect_retry_count st; user_canceled := user_canceled st;
     writer := writer st; reconnect_handler := reconnect_handler st;
     task_handler := task_handler st; receive_handler := receive_handler st; t1 := t1 st;
     t2 := t2 st; t3 := t3 st; connected := connected st; loop := loop st; wire := wire st;
     processed := v |}.

(** [__init__]: the first connection attempt is scheduled with
    [call_soon]; fifteen minutes in microseconds. *)
Definition init_device : Device :=
  {| ssn := 0; rsn := 0; k := 0; w := 0; send_list := [];
     last_call_all_time_begin := None; last_call_all_time_end := None;
     coll_interval := 15 * 60 * 1000000; connect_retry_count := 0; user_canceled := false;
     writer := None; reconnect_handler := Some 0%nat; task_handler := None;
     receive_handler := None; t1 := None; t2 := None; t3 := None; connected := false;
     loop := [ {| sch_delay := 0; sch_action := ActReconnect; sch_cancelled := false |} ];
     wire := []; processed := [] |}.

(** ** Loop primitives *)

Definition call_later (delay : Z) (a : Action) (st : Device) : Device * nat :=
  (set_loop (loop st ++ [ {| sch_delay := delay; sch_action := a; sch_cancelled := false |} ]) st,
   length (loop st)).

Definition call_soon (a : Action) (st : Device) : Device * nat := call_later 0 a st.

Definition create_task (a : Action) (st : Device) : Device := fst (call_later 0 a st).

Definition cancel (h : nat) (st : Device) : Device :=
  set_loop (alter cancel_entry h (loop st)) st.

(** A handle is live when the loop still holds it uncancelled. *)
Definition timer_live (st : Device) (h : nat) : bool :=
  match loop st !! h with
  | Some s => negb (sch_cancelled s)
  | None => false
  end.

Definition handle_live (st : Device) (oh : option nat) : bool :=
  match oh with
  | Some h => timer_live st h
  | None => false
  end.

(** ** Timers *)

Inductive TimerId := TimerT1 | TimerT2 | TimerT3.

Definition timer_delay (t : TimerId) : Z :=
  match t with
  | TimerT1 => IECParam.T1
  | TimerT2 => IECParam.T2
  | TimerT3 => IECParam.T3
  end.

Definition timer_callback (t : TimerId) : Action :=
  match t with
  | TimerT1 => ActOnTimer1
  | TimerT2 => ActOnTimer2
  | TimerT3 => ActOnTimer3
  end.

Definition get_timer (t : TimerId) (st : Device) : option nat :=
  match t with
  | TimerT1 => t1 st
  | TimerT2 => t2 st
  | TimerT3 => t3 st
  end.

Definition set_timer (t : TimerId) (v : option nat) (st : Device) : Device :=
  match t with
  | TimerT1 => set_t1 v st
  | TimerT2 => set_t2 v st
  | TimerT3 => set_t3 v st
  end.

Definition stop_timer (t : TimerId) (st : Device) : Device :=
  match get_timer t st with
  | Some h => set_timer t None (cancel h st)
  | None => st
  end.

Definition start_timer (t : TimerId) (st : Device) : Device :=
  let st := stop_timer t st in
  let '(st, h) := call_later (timer_delay t) (timer_callback t) st in
  set_timer t (Some h) st.

(** ** Sequence numbers *)

Definition inc_ssn (st : Device) : Device :=
  set_ssn (if ssn st <? 32767 then ssn st + 1 else 0) st.

Definition inc_rsn (st : Device) : Device :=
  set_rsn (if rsn st <? 32767 then rsn st + 1 else 0) st.

(** ** disconnect *)

Definition close_writer (st : Device) : Device :=
  set_writer (option_map (fun wr => {| wr_closed := true; wr_broken := wr_broken wr |}) (writer st)) st.

(** The first lines of [disconnect]: a user's call cancels a pending
    reconnect, a failure arms one unless one is pending. *)
Definition disconnect_arm (st : Device) (reconnect : bool) : Device :=
  if negb reconnect then
    let st := set_user_canceled true st in
    match reconnect_handler st with
    | Some h => cancel h st
    | None => st
    end
  else
    match reconnect_handler st with
    | None =>
        let '(st, h) := call_later 3 ActReconnect st in
        let st := set_reconnect_handler (Some h) st in
        set_connect_retry_count (connect_retry_count st + 1) st
    | Some _ => st
    end.

Definition disconnect (st : Device) (reconnect : bool) : Device :=
  let st := disconnect_arm st reconnect in
  let st := stop_timer TimerT1 st in
  let st := stop_timer TimerT2 st in
  let st := stop_timer TimerT3 st in
  let st := close_writer st in
  let st := if connected st then set_connected false st else st in
  let st := set_ssn 0 st in
  let st := set_rsn 0 st in
  let st := set_k 0 st in
  let st := set_w 0 st in
  set_send_list [] st.

(** ** Exceptions

    A method body either completes or raises; in both cases the
    mutations made so far stay on the device. *)

Inductive outcome :=
  | Done (st : Device)
  | Raised (st : Device).

Definition and_then (o : outcome) (f : Device -> outcome) : outcome :=
  match o with
  | Done st => f st
  | Raised st => Raised st
  end.

Notation "st <- o ;; rest" := (and_then o (fun st => rest))
  (at level 100, o at next level, right associativity).

(** [except Exception: self.disconnect(reconnect=True)] *)
Definition or_reconnect (o : outcome) : Device :=
  match o with
  | Done st => st
  | Raised st => disconnect st true
  end.

(** ** send_frame *)

(** [self.writer.write(encode_frame); await self.writer.drain()] *)
Definition write_frame (f : Frame) (st : Device) : outcome :=
  match writer st with
  | None => Raised st
  | Some wr =>
      let st := set_wire (wire st ++ [f]) st in
      if wr_broken wr then Raised st else Done st
  end.

Definition is_act_u (u : UFrame) : bool :=
  match u with
  | STARTDT_ACT | TESTFR_ACT => true
  | _ => false
  end.

Definition is_nil {A} (l : list A) : bool :=
  match l with
  | [] => true
  | _ => false
  end.

Definition send_frame_try (st : Device) (frame : Frame) (check : bool) : outcome :=
  match frame with
  | FrameS _ =>
      let st := stop_timer TimerT2 st in
      let frame := FrameS (rsn st) in
      st <- write_frame frame st ;;
      let st := set_w 0 st in
      Done (create_task (ActSaveFrame frame true) st)
  | FrameU u =>
      if negb check || is_nil (send_list st) then
        st <- write_frame frame st ;;
        let st := if is_act_u u then start_timer TimerT1 st else st in
        let st := if check && is_act_u u then set_send_list (send_list st ++ [frame]) st else st in
        Done (create_task (ActSaveFrame frame true) st)
      else
        Done (if check && is_act_u u then set_send_list (send_list st ++ [frame]) st else st)
  | FrameI _ _ a =>
      let is_act := asdu_Cause a =? Cause.act in
      if negb check || is_nil (send_list st) || negb is_act then
        let st := stop_timer TimerT2 st in
        let frame := FrameI (ssn st) (rsn st) a in
        st <- write_frame frame st ;;
        let st := inc_ssn st in
        let st := set_k (k st + 1) st in
        let st := set_w 0 st in
        let st := if is_act then start_timer TimerT1 st else st in
        let st := if check && is_act then set_send_list (send_list st ++ [frame]) st else st in
        Done (create_task (ActSaveFrame frame true) st)
      else
        Done (if check && is_act then set_send_list (send_list st ++ [frame]) st else st)
  end.

Definition send_frame (st : Device) (frame : option Frame) (check : bool) : Device :=
  match frame with
  | None => st
  | Some frame => or_reconnect (send_frame_try st frame check)
  end.

(** ** check_to_send *)

(** The frame at the head of [send_list] is the object handed to
    [send_frame], which stamps its control fields in place. *)
Definition stamp (st : Device) (f : Frame) : Frame :=
  match f with
  | FrameU u => FrameU u
  | FrameS _ => FrameS (rsn st)
  | FrameI _ _ a => FrameI (ssn st) (rsn st) a
  end.

(** [await self.send_frame(self.send_list[0] if self.send_list else None, check=False)] *)
Definition send_head (st : Device) : Device :=
  match send_list st with
  | [] => st
  | f :: _ =>
      let st' := send_frame st (Some f) false in
      match send_list st' with
      | _ :: rest => set_send_list (stamp st f :: rest) st'
      | [] => st'
      end
  end.

Definition popleft (st : Device) : Device := set_send_list (tail (send_list st)) st.

Definition is_con_u (u : UFrame) : bool :=
  match u with
  | STARTDT_CON | TESTFR_CON | STOPDT_CON => true
  | _ => false
  end.

Definition check_to_send_try (st : Device) (frame : option Frame) : outcome :=
  let st := stop_timer TimerT1 st in
  match send_list st, frame with
  | [], _ => Done st
  | _, None => Done st
  | head :: _, Some frame =>
      match frame with
      | FrameU u =>
          if is_con_u u then Done (send_head (popleft st))
          else Raised st
      | FrameS _ => Raised st
      | FrameI _ _ a =>
          match ASDU head with
          | None => Raised st
          | Some ha =>
              if (asdu_TYP a =? asdu_TYP ha)
                 || ((asdu_Cause a =? Cause.req) && (asdu_TYP ha =? TYP.C_RD_NA_1))
              then Done (send_head (popleft st))
              else Done st
          end
      end
  end.

Definition check_to_send (st : Device) (frame : option Frame) : Device :=
  or_reconnect (check_to_send_try st frame).

(** ** run_task: the periodic scheduler *)

(** [timedelta.seconds] of a difference of two times in microseconds. *)
Definition timedelta_seconds (d : Z) : Z := (d `div` 1000000) `mod` 86400.

Definition run_task (st : Device) (now : Z) : Device :=
  let last_end := default now (last_call_all_time_end st) in
  let st := set_last_call_all_time_end (Some last_end) st in
  let st :=
    if last_end + coll_interval st <=? now then
      let st := set_last_call_all_time_begin (Some now) st in
      let st := send_frame st (Some (init_frame_i (ssn st) (rsn st) TYP.C_CS_NA_1 Cause.act)) true in
      let st := send_frame st (Some (init_frame_i (ssn st) (rsn st) TYP.C_IC_NA_1 Cause.act)) true in
      send_frame st (Some (init_frame_i (ssn st) (rsn st) TYP.C_CI_NA_1 Cause.act)) true
    else st in
  let st :=
    match task_handler st with
    | Some h => cancel h st
    | None => st
    end in
  let time_delta := default now (last_call_all_time_end st) + coll_interval st - now in
  let '(st, h) := call_later (timedelta_seconds time_delta) ActRunTask st in
  set_task_handler (Some h) st.

(** ** handle_i: the dispatcher *)

Definition in_range (lo hi x : Z) : bool := (lo <=? x) && (x <=? hi).

(** [hasattr(data, "IV") and data.IV != 0] *)
Definition iv_invalid (d : DataElem) : bool :=
  match IV d with
  | Some v => negb (v =? 0)
  | None => false
  end.

Definition data_time (now : Z) (d : DataElem) : Z :=
  match CP56Time2a d with
  | Some t => t
  | None => default now (CP24Time2a d)
  end.

(** The loop over [frame.ASDU.data]; [None] when an attribute is missing
    and the loop raises.  [idx] is the source's counter. *)
Fixpoint collect_pairs (a : Asdu) (now : Z) (idx : Z) (ds : list DataElem)
  : option (list (Z * Z * Z)) :=
  match ds with
  | [] => Some []
  | d :: rest =>
      if iv_invalid d then collect_pairs a now idx rest
      else
        match (if asdu_SQ a =? 0 then Address d else (fun s => s + idx) <$> StartAddress a) with
        | None => None
        | Some data_addr =>
            match collect_pairs a now (idx + 1) rest with
            | None => None
            | Some ps => Some ((data_time now d, data_addr, Value d) :: ps)
            end
        end
  end.

(** [frame.ASDU.data[0].SE] *)
Definition first_SE (a : Asdu) : option Z :=
  match data a with
  | d :: _ => SE d
  | [] => None
  end.

Definition is_command (a : Asdu) : bool := in_range TYP.C_SC_NA_1 TYP.C_SE_TC_1 (asdu_TYP a).

(** The condition of the measurement branch; [None] when evaluating it
    raises. *)
Definition is_measurement (a : Asdu) : option bool :=
  let c := asdu_Cause a in
  if (c =? Cause.spont) || (c =? Cause.introgen) || (c =? Cause.reqcogen) then Some true
  else if (c =? Cause.req) && in_range TYP.M_SP_NA_1 TYP.M_EP_TD_1 (asdu_TYP a) then Some true
  else if (c =? Cause.actcon) && is_command a then (fun se => se =? 0) <$> first_SE a
  else Some false.

Definition method_of (a : Asdu) : Method :=
  if asdu_Cause a =? Cause.req then MCall
  else if asdu_Cause a =? Cause.actcon then MCtrl
  else MData.

Definition process_data (pairs : gset (Z * Z * Z)) (m : Method) (st : Device) : Device :=
  set_processed (processed st ++ [(m, pairs)]) st.

(** [send_data.ASDU.Cause = Cause.act; send_data.ASDU.data[0].SE = 0] *)
Definition execute_of (a : Asdu) : Asdu :=
  {| asdu_TYP := asdu_TYP a; asdu_SQ := asdu_SQ a; asdu_SQ_COUNT := asdu_SQ_COUNT a;
     asdu_Cause := Cause.act; StartAddress := StartAddress a;
     data := match data a with
             | d :: rest =>
                 {| Address := Address d; Value := Value d; IV := IV d; SE := Some 0;
                    CP56Time2a := CP56Time2a d; CP24Time2a := CP24Time2a d |} :: rest
             | [] => []
             end |}.

Definition handle_i_try (st : Device) (frame : Frame) (now : Z) : outcome :=
  let st := start_timer TimerT2 st in
  match frame with
  | FrameI s r a =>
      let st := if IECParam.W <=? w st then send_frame st (Some (init_frame_s (rsn st))) true
                else st in
      let st := if (asdu_Cause a =? Cause.actcon) || (asdu_Cause a =? Cause.req)
                then create_task (ActCheckToSend frame) (stop_timer TimerT1 st)
                else st in
      match is_measurement a with
      | None => Raised st
      | Some true =>
          match collect_pairs a now 0 (data a) with
          | None => Raised st
          | Some pairs => Done (process_data (list_to_set pairs) (method_of a) st)
          end
      | Some false =>
          if asdu_Cause a =? Cause.actcon then
            if is_command a then
              match first_SE a with
              | None => Raised st
              | Some se =>
                  if se =? 1 then Done (send_frame st (Some (FrameI s r (execute_of a))) true)
                  else Done st
              end
            else Done st
          else if asdu_Cause a =? Cause.actterm then
            Done (if asdu_TYP a =? TYP.C_CI_NA_1 then set_last_call_all_time_end (Some now) st
                  else st)
          else Done st
      end
  | _ => Raised st
  end.

Definition handle_i (st : Device) (frame : Frame) (now : Z) : Device :=
  or_reconnect (handle_i_try st frame now).

(** ** handle_u *)

(** The cross-start and cross-test case: our own request of kind [u] is
    at the head of [send_list]. *)
Definition drop_own (u : UFrame) (st : Device) : Device :=
  match send_list st with
  | FrameU u' :: _ =>
      if bool_decide (APCI_U u' = APCI_U u) then stop_timer TimerT1 (popleft st) else st
  | _ => st
  end.

Definition handle_u (st : Device) (u : UFrame) : Device :=
  let frame := FrameU u in
  match u with
  | STARTDT_ACT =>
      let st := drop_own STARTDT_ACT st in
      let st := send_frame st (Some (init_frame_u STARTDT_CON)) true in
      let st := create_task ActRunTask st in
      create_task (ActCheckToSend frame) st
  | STARTDT_CON =>
      let st := create_task ActRunTask st in
      create_task (ActCheckToSend frame) st
  | TESTFR_ACT =>
      let st := drop_own TESTFR_ACT st in
      send_frame st (Some (init_frame_u TESTFR_CON)) true
  | TESTFR_CON =>
      create_task (ActCheckToSend frame) st
  | STOPDT_ACT =>
      let st := send_frame st (Some (init_frame_u STOPDT_CON)) true in
      disconnect st false
  | STOPDT_CON =>
      let st := stop_timer TimerT1 st in
      disconnect st false
  end.

(** ** receive *)

(** Up to the parse: restart T3 and spawn the next receive task. *)
Definition receive_head (st : Device) : Device :=
  let st := start_timer TimerT3 st in
  let '(st, h) := call_later 0 ActReceive st in
  set_receive_handler (Some h) st.

(** What one run of the receive task meets: a frame, one of the two
    connection errors, another exception of the reads, or bytes that
    [iec_104.parse] rejects. *)
Inductive Incoming :=
  | GotFrame (f : Frame)
  | IncompleteRead
  | ConnectionReset
  | ReadFailed
  | Malformed.

(** Lines 127-137: the check of the peer's sequence numbers.  Returns the
    device and [bad_frame]. *)
Definition check_seq (st : Device) (frame : Frame) : Device * bool :=
  let '(st, bad_frame) :=
    if ssn st <? APCI2 frame then (st, true)
    else (set_k (ssn st - APCI2 frame) st, false) in
  match APCI1 frame with
  | APCI_I n =>
      if bool_decide (rsn st = n) then (set_w (w st + 1) (set_rsn (rsn st + 1) st), bad_frame)
      else (st, true)
  | APCI_U _ => (st, true)
  | APCI_S => (st, bad_frame)
  end.

Definition receive (st : Device) (inc : Incoming) (now : Z) : Device :=
  match inc with
  | IncompleteRead =>
      if user_canceled st then st
      else
        match reconnect_handler st with
        | Some _ => st
        | None => disconnect st true
        end
  | ConnectionReset => disconnect st true
  | ReadFailed => disconnect st true
  | Malformed => disconnect (receive_head st) true
  | GotFrame frame =>
      let st := receive_head st in
      let st := create_task (ActSaveFrame frame false) st in
      match frame with
      | FrameU u => handle_u st u
      | _ =>
          let '(st, bad_frame) := check_seq st frame in
          if bad_frame then
            match reconnect_handler st with
            | None => disconnect st true
            | Some _ => st
            end
          else
            match frame with
            | FrameI _ _ _ => handle_i st frame now
            | _ => st
            end
      end
  end.

(** ** reconnect and the timer callbacks *)

Inductive ConnectResult :=
  | ConnOk (broken : bool)
  | ConnTimeout
  | ConnFailed.

Definition reconnect (st : Device) (res : ConnectResult) : Device :=
  let st := set_reconnect_handler None st in
  let st := set_user_canceled false st in
  match res with
  | ConnTimeout => disconnect st true
  | ConnFailed => disconnect st true
  | ConnOk broken =>
      let st := set_writer (Some {| wr_closed := false; wr_broken := broken |}) st in
      let st := set_connected true st in
      let '(st, h) := call_later 0 ActReceive st in
      let st := set_receive_handler (Some h) st in
      send_frame st (Some (init_frame_u STARTDT_ACT)) true
  end.

Definition on_timer1 (st : Device) : Device :=
  match reconnect_handler st with
  | None =>
      let '(st, h) := call_soon ActReconnect st in
      set_reconnect_handler (Some h) st
  | Some _ => st
  end.

Definition on_timer2 (st : Device) : Device :=
  create_task (ActSendFrame (init_frame_s (rsn st))) st.

Definition on_timer3 (st : Device) : Device :=
  create_task (ActSendFrame (init_frame_u TESTFR_ACT)) st.

(** ** The session as a transition system

    One event is one callback or task of the loop run to completion, or a
    call made by the owner of the device. *)
Inductive Event :=
  | EvReconnect (res : ConnectResult)
  | EvReceive (inc : Incoming)
  | EvTimer1 | EvTimer2 | EvTimer3
  | EvRunTask
  | EvCheckToSend (f : option Frame)
  | EvSendFrame (f : option Frame) (check : bool)
  | EvDisconnect (reconnect : bool).

Definition step (now : Z) (st : Device) (ev : Event) : Device :=
  match ev with
  | EvReconnect res => reconnect st res
  | EvReceive inc => receive st inc now
  | EvTimer1 => on_timer1 st
  | EvTimer2 => on_timer2 st
  | EvTimer3 => on_timer3 st
  | EvRunTask => run_task st now
  | EvCheckToSend f => check_to_send st f
  | EvSendFrame f check => send_frame st f check
  | EvDisconnect r => disconnect st r
  end.

Definition run (now : Z) (st : Device) (evs : list Event) : Device :=
  foldl (step now) st evs.

(** ** The term-creation handler of the REST facade *)

Module APIServer.

(** The key-value store: hashes, sets, and the messages published so
    far, each with its channel. *)
Record Redis := mkRedis {
  hashes : gmap string (gmap string string);
  sets : gmap string (gset string);
  channels : list (string * string)
}.

(** A request: the raw body and what [json.loads] makes of it ([None]
    when it raises). *)
Record Request := mkRequest {
  req_body : string;
  req_json : option (gmap string string)
}.

Record Response := mkResponse {
  status : Z;
  text : string
}.

Definition exists_key (db : Redis) (key : string) : bool :=
  bool_decide (is_Some (hashes db !! key)) || bool_decide (is_Some (sets db !! key)).

Definition hmset (key : string) (d : gmap string string) (db : Redis) : Redis :=
  {| hashes := <[key := d ∪ default ∅ (hashes db !! key)]> (hashes db);
     sets := sets db; channels := channels db |}.

Definition sadd (key member : string) (db : Redis) : Redis :=
  {| hashes := hashes db;
     sets := <[key := {[member]} ∪ default ∅ (sets db !! key)]> (sets db);
     channels := channels db |}.

Definition publish (channel message : string) (db : Redis) : Redis :=
  {| hashes := hashes db; sets := sets db;
     channels := channels db ++ [(channel, message)] |}.

Definition double_quote : ascii := ascii_of_nat 34.

(** The channel literal of line 307, whose last character is a double
    quote. *)
Definition term_add_channel : string :=
  "CHANNEL:TERM_ADD" +:+ String double_quote EmptyString.

Definition bad_request (db : Redis) : Redis * Response :=
  (db, {| status := 400; text := "exception" |}).

Definition create_term (db : Redis) (request : Request) : Redis * Response :=
  match req_json request with
  | None => bad_request db
  | Some term_dict =>
      match term_dict !! "id" with
      | None => bad_request db
      | Some id =>
          if exists_key db ("HS:TERM:" +:+ id) then
            (db, {| status := 409; text := "term already exists!" |})
          else
            let db := hmset ("HS:TERM:" +:+ id) term_dict db in
            let db := sadd "SET:TERM" id db in
            match term_dict !! "device_id" with
            | None => bad_request db
            | Some device_id =>
                let db := sadd ("SET:DEVICE_TERM:" +:+ device_id) id db in
                let db := publish term_add_channel (req_body request) db in
                (db, {| status := 200; text := EmptyString |})
            end
      end
  end.

(** The publication of [update_term] when a term moves to another
    device (line 330). *)
Definition update_term_readd (term_data : string) (db : Redis) : Redis :=
  publish "CHANNEL:TERM_ADD" term_data db.


(** *** The read handlers and the other creation handlers *)

(** [hgetall] and [smembers]: empty when the key is missing. *)
Definition hgetall (db : Redis) (key : string) : gmap string string :=
  default ∅ (hashes db !! key).

Definition smembers (db : Redis) (key : string) : gset string :=
  default ∅ (sets db !! key).

(** What a handler returns: [web.Response(status=..., text=...)] or
    [JSON(...)] of a hash, of a set, or of a message. *)
Inductive Reply :=
  | Plain (status : Z) (text : string)
  | JsonDict (d : gmap string string)
  | JsonSet (s : gset string)
  | JsonText (s : string).

Definition get_device_list (db : Redis) : Reply := JsonSet (smembers db "SET:DEVICE").

Definition get_device (db : Redis) (device_id : string) : Reply :=
  let device := hgetall db ("HS:DEVICE:" +:+ device_id) in
  if bool_decide (device = ∅) then Plain 404 "device_id not found!" else JsonDict device.

Definition get_term_list (db : Redis) : Reply := JsonSet (smembers db "SET:TERM").

Definition get_term (db : Redis) (term_id : string) : Reply :=
  let term := hgetall db ("HS:TERM:" +:+ term_id) in
  if bool_decide (term = ∅) then Plain 404 "term_id not found!" else JsonDict term.

Definition get_item_list (db : Redis) : Reply := JsonSet (smembers db "SET:ITEM").

Definition get_item (db : Redis) (item_id : string) : Reply :=
  let item := hgetall db ("HS:ITEM:" +:+ item_id) in
  if bool_decide (item = ∅) then Plain 404 "item_id not found!" else JsonDict item.

Definition get_device_term_list (db : Redis) (device_id : string) : Reply :=
  if exists_key db ("SET:DEVICE_TERM:" +:+ device_id)
  then JsonSet (smembers db ("SET:DEVICE_TERM:" +:+ device_id))
  else Plain 404 "device_id not found!".

Definition get_term_item_list (db : Redis) (term_id : string) : Reply :=
  if exists_key db ("SET:TERM_ITEM:" +:+ term_id)
  then JsonSet (smembers db ("SET:TERM_ITEM:" +:+ term_id))
  else Plain 404 "term_id not found!".

Definition get_term_item (db : Redis) (term_id item_id : string) : Reply :=
  if negb (exists_key db ("HS:TERM:" +:+ term_id)) then Plain 404 "term_id not found!"
  else if negb (exists_key db ("HS:ITEM:" +:+ item_id)) then Plain 404 "item_id not found!"
  else
    let term_item := hgetall db ("HS:TERM_ITEM:" +:+ term_id +:+ ":" +:+ item_id) in
    if bool_decide (term_item = ∅) then Plain 404 "term_item not found!"
    else JsonDict term_item.

Definition create_device (db : Redis) (request : Request) : Redis * Response :=
  match req_json request with
  | None => bad_request db
  | Some device_dict =>
      match device_dict !! "id" with
      | None => bad_request db
      | Some id =>
          if exists_key db ("HS:DEVICE:" +:+ id) then
            (db, {| status := 409; text := "device already exists!" |})
          else
            let db := hmset ("HS:DEVICE:" +:+ id) device_dict db in
            let db := sadd "SET:DEVICE" id db in
            let db := publish "CHANNEL:DEVICE_ADD" (req_body request) db in
            (db, {| status := 200; text := EmptyString |})
      end
  end.

Definition create_item (db : Redis) (request : Request) : Redis * Response :=
  match req_json request with
  | None => bad_request db
  | Some item_dict =>
      match item_dict !! "id" with
      | None => bad_request db
      | Some id =>
          if exists_key db ("HS:ITEM:" +:+ id) then
            (db, {| status := 409; text := "item already exists!" |})
          else
            let db := hmset ("HS:ITEM:" +:+ id) item_dict db in
            let db := sadd "SET:ITEM" id db in
            (db, {| status := 200; text := EmptyString |})
      end
  end.

(** [device_call]: the checks, the request on the bus, and the wait for
    the answer on the response channel; [answer] is the message that
    arrives within [HANDLER_TIME_OUT], if any. *)
Definition device_call (db : Redis) (request : Request) (answer : option string)
  : Redis * Reply :=
  let failed db := (db, Plain 400 "exception") in
  match req_json request with
  | None => failed db
  | Some call_data_dict =>
      match call_data_dict !! "device_id" with
      | None => failed db
      | Some device_id =>
          if negb (exists_key db ("HS:DEVICE:" +:+ device_id))
          then (db, Plain 404 "device_id not found!")
          else
            match call_data_dict !! "term_id" with
            | None => failed db
            | Some term_id =>
                if negb (exists_key db ("HS:TERM:" +:+ term_id))
                then (db, Plain 404 "term_id not found!")
                else
                  match call_data_dict !! "item_id" with
                  | None => failed db
                  | Some item_id =>
                      if negb (exists_key db ("HS:ITEM:" +:+ item_id))
                      then (db, Plain 404 "item_id not found!")
                      else if negb (exists_key db
                                      ("HS:TERM_ITEM:" +:+ term_id +:+ ":" +:+ item_id))
                      then (db, Plain 404 "term_item not found!")
                      else
                        let db := publish "CHANNEL:DEVICE_CALL" (req_body request) db in
                        match answer with
                        | Some rst => (db, JsonText rst)
                        | None => failed db
                        end
                  end
            end
      end
  end.

End APIServer.


(** ** Notions used by the statements *)

Definition outcome_state (o : outcome) : Device :=
  match o with
  | Done st => st
  | Raised st => st
  end.

(** An entry that can no longer fire. *)
Definition dead (l : list Scheduled) (h : nat) : Prop :=
  forall s, l !! h = Some s -> sch_cancelled s = true.

(** A handle, when set, names an entry of the loop. *)
Definition in_loop (st : Device) (oh : option nat) : Prop :=
  forall h, oh = Some h -> (h < length (loop st))%nat.

Definition handles_ok (st : Device) : Prop :=
  in_loop st (t1 st) /\ in_loop st (t2 st) /\ in_loop st (t3 st) /\
  in_loop st (reconnect_handler st) /\ in_loop st (task_handler st).

(** The connection is open and its writer does not raise. *)
Definition healthy (st : Device) : bool :=
  match writer st with
  | Some wr => negb (wr_broken wr)
  | None => false
  end.

(** The frames written between two states. *)
Definition emitted (st st' : Device) : list Frame := drop (length (wire st)) (wire st').


Definition is_I_frame (f : Frame) : bool :=
  match f with
  | FrameI _ _ _ => true
  | _ => false
  end.

(** ** Sample sessions *)

(** A session that connected, received STARTDT_CON, and ran the two
    tasks that [handle_u] spawned. *)
Definition started : Device :=
  run 0 init_device
    [EvReconnect (ConnOk false); EvReceive (GotFrame (FrameU STARTDT_CON));
     EvRunTask; EvCheckToSend (Some (FrameU STARTDT_CON))].

(** A single-point information object with its own address, and one of
    a sequence (SQ=1), which has none. *)
Definition point (addr val : Z) : DataElem :=
  {| Address := Some addr; Value := val; IV := Some 0; SE := None;
     CP56Time2a := None; CP24Time2a := None |}.

Definition seq_point (val iv : Z) : DataElem :=
  {| Address := None; Value := val; IV := Some iv; SE := None;
     CP56Time2a := None; CP24Time2a := None |}.

Definition spont_point (s r : Z) : Frame :=
  FrameI s r {| asdu_TYP := TYP.M_SP_NA_1; asdu_SQ := 0; asdu_SQ_COUNT := 1;
                asdu_Cause := Cause.spont; StartAddress := None; data := [point 100 1] |}.

(** Three sequential points from address 100, the first one invalid. *)
Definition seq_asdu : Asdu :=
  {| asdu_TYP := TYP.M_SP_NA_1; asdu_SQ := 1; asdu_SQ_COUNT := 3; asdu_Cause := Cause.spont;
     StartAddress := Some 100; data := [seq_point 10 1; seq_point 20 0; seq_point 30 0] |}.

(** A store with no term, and a well-formed creation request. *)
Definition empty_db : APIServer.Redis :=
  {| APIServer.hashes := ∅; APIServer.sets := ∅; APIServer.channels := [] |}.

Definition new_term : APIServer.Request :=
  {| APIServer.req_body := "{id: 1, device_id: 7}";
     APIServer.req_json := Some (<["id" := "1"]> (<["device_id" := "7"]> ∅)) |}.

(** [handler.cancel()] on an attribute that may be unset. *)
Definition cancel_opt (oh : option nat) (l : list Scheduled) : list Scheduled :=
  match oh with
  | Some h => alter cancel_entry h l
  | None => l
  end.

(** The session whose send number wrapped: at [ssn] 32767 with nothing
    outstanding it sends a read command. *)
Definition wrapped : Device :=
  send_frame (set_ssn 32767 started)
    (Some (init_frame_i 0 0 TYP.C_RD_NA_1 Cause.act)) true.

(** The started session a quarter of an hour later, after the scheduler
    ran: one interrogation is on the wire, T1 runs, three commands wait
    for their confirmations. *)
Definition polling : Device := run (15 * 60 * 1000000) started [EvRunTask].

(** A live entry of the loop that reconnects after three seconds. *)
Definition is_reconnect_timer (s : Scheduled) : bool :=
  match sch_action s with
  | ActReconnect => (sch_delay s =? 3) && negb (sch_cancelled s)
  | _ => false
  end.

Definition reconnect_armed (st : Device) : bool := existsb is_reconnect_timer (loop st).

(** A session whose first connection attempt timed out and whose second
    one succeeded and was confirmed by the peer. *)
Definition retried : Device :=
  run 0 init_device
    [EvReconnect ConnTimeout; EvReconnect (ConnOk false);
     EvReceive (GotFrame (FrameU STARTDT_CON));
     EvRunTask; EvCheckToSend (Some (FrameU STARTDT_CON))].




(** ** The command builders *)

(** [prepare_call_frame] and [prepare_ctrl_frame]; the arguments are the
    integers that [int(...)] reads from the binding. *)
Definition set_first (f : DataElem -> DataElem) (a : Asdu) : Asdu :=
  {| asdu_TYP := asdu_TYP a; asdu_SQ := asdu_SQ a; asdu_SQ_COUNT := asdu_SQ_COUNT a;
     asdu_Cause := asdu_Cause a; StartAddress := StartAddress a;
     data := match data a with
             | d :: rest => f d :: rest
             | [] => []
             end |}.

Definition with_asdu (f : Asdu -> Asdu) (frame : Frame) : Frame :=
  match frame with
  | FrameI s r a => FrameI s r (f a)
  | _ => frame
  end.

Definition prepare_call_frame (st : Device) (protocol_code : Z) : Frame :=
  let frame := init_frame_i (ssn st) (rsn st) TYP.C_RD_NA_1 Cause.act in
  with_asdu (set_first (fun d =>
    {| Address := Some protocol_code; Value := Value d; IV := IV d; SE := SE d;
       CP56Time2a := CP56Time2a d; CP24Time2a := CP24Time2a d |})) frame.

Definition prepare_ctrl_frame (st : Device) (code_type protocol_code value : Z) : Frame :=
  let frame := init_frame_i (ssn st) (rsn st) code_type Cause.act in
  with_asdu (set_first (fun d =>
    {| Address := Some protocol_code; Value := value; IV := IV d; SE := Some 1;
       CP56Time2a := CP56Time2a d; CP24Time2a := CP24Time2a d |})) frame.

(** What the send path leaves to the scheduler: the end of the last
    interrogation, the interval and the handle; the loop only grows. *)
Definition same_schedule (st st' : Device) : Prop :=
  last_call_all_time_end st' = last_call_all_time_end st /\
  coll_interval st' = coll_interval st /\
  task_handler st' = task_handler st /\
  (length (loop st) <= length (loop st'))%nat.


(** The elements the dispatcher keeps. *)
Definition valid_elems (ds : list DataElem) : list DataElem :=
  List.filter (fun d => negb (iv_invalid d)) ds.

(** A term-creation request whose body lacks [device_id], and the
    corrected request. *)
Definition term_without_device : APIServer.Request :=
  {| APIServer.req_body := "{id: 1}";
     APIServer.req_json := Some (<["id" := "1"]> ∅) |}.

(** An item-creation request, and a store that holds one device, one
    term, one item and their binding. *)
Definition new_item : APIServer.Request :=
  {| APIServer.req_body := "{id: 3}"; APIServer.req_json := Some (<["id" := "3"]> ∅) |}.

Definition bound_db : APIServer.Redis :=
  {| APIServer.hashes :=
       <["HS:DEVICE:7" := <["id" := "7"]> ∅]>
         (<["HS:TERM:1" := <["id" := "1"]> ∅]>
            (<["HS:ITEM:3" := <["id" := "3"]> ∅]>
               (<["HS:TERM_ITEM:1:3" := <["protocol_code" := "200"]> ∅]> ∅)));
     APIServer.sets := ∅; APIServer.channels := [] |}.

Definition call_request : APIServer.Request :=
  {| APIServer.req_body := "{device_id: 7, term_id: 1, item_id: 3}";
     APIServer.req_json :=
       Some (<["device_id" := "7"]> (<["term_id" := "1"]> (<["item_id" := "3"]> ∅))) |}.

(** The response the peer gives to a read command: one measured value. *)
Definition read_response (s r addr val : Z) : Frame :=
  FrameI s r {| asdu_TYP := TYP.M_ME_NA_1; asdu_SQ := 0; asdu_SQ_COUNT := 1;
                asdu_Cause := Cause.req; StartAddress := None; data := [point addr val] |}.

(** The peer's confirmation of a select command for address 300. *)
Definition select_ack : Asdu :=
  {| asdu_TYP := TYP.C_SC_NA_1; asdu_SQ := 0; asdu_SQ_COUNT := 1; asdu_Cause := Cause.actcon;
     StartAddress := None;
     data := [ {| Address := Some 300; Value := 1; IV := None; SE := Some 1;
                  CP56Time2a := None; CP24Time2a := None |} ] |}.

(** * Properties *)

(** The methods are unfolded by name, never by simplification. *)
#[local] Arguments send_frame : simpl never.
#[local] Arguments send_frame_try : simpl never.
#[local] Arguments disconnect : simpl never.
#[local] Arguments send_head : simpl never.
#[local] Arguments check_to_send : simpl never.
#[local] Arguments handle_i : simpl never.
#[local] Arguments handle_u : simpl never.
#[local] Arguments run_task : simpl never.
#[local] Arguments receive : simpl never.
#[local] Arguments reconnect : simpl never.
#[local] Arguments receive_head : simpl never.
#[local] Arguments check_seq : simpl never.
#[local] Arguments stop_timer : simpl never.
#[local] Arguments start_timer : simpl never.

(** ** The loop and its handles *)

Lemma dead_alter_same (l : list Scheduled) h : dead (alter cancel_entry h l) h.
Proof.
  intros s. rewrite list_lookup_alter_eq.
  destruct (l !! h); simpl; [|done]. by intros [= <-].
Qed.

Lemma dead_alter_mono (l : list Scheduled) h h' : dead l h -> dead (alter cancel_entry h' l) h.
Proof.
  intros Hd. destruct (decide (h' = h)) as [->|Hne]; [apply dead_alter_same|].
  intros s. rewrite list_lookup_alter_ne by done. apply Hd.
Qed.

Lemma dead_snoc (l : list Scheduled) x h : (h < length l)%nat -> dead l h -> dead (l ++ [x]) h.
Proof. intros Hlt Hd s. rewrite lookup_app_l by done. apply Hd. Qed.

Lemma timer_live_false st h : timer_live st h = false <-> dead (loop st) h.
Proof.
  unfold timer_live, dead. destruct (loop st !! h) as [s|]; split; try done.
  - intros Hs s' [= <-]. by destruct (sch_cancelled s).
  - intros Hs. by rewrite (Hs s eq_refl).
Qed.

Lemma handle_live_false st oh :
  handle_live st oh = false <-> (forall h, oh = Some h -> dead (loop st) h).
Proof.
  destruct oh as [h|]; simpl.
  - rewrite timer_live_false. split; [by intros ? ? [= <-]|auto].
  - split; [by intros|done].
Qed.

(** Closed statements about the sample sessions are settled by
    evaluation, one conjunct at a time. *)
Ltac by_eval :=
  intros;
  repeat match goal with |- _ /\ _ => split end;
  vm_compute; first [reflexivity | discriminate | by eauto | by intros [=]].

Lemma cancel_loop h st : loop (cancel h st) = alter cancel_entry h (loop st).
Proof. done. Qed.



Lemma stop_timer_get t st : get_timer t (stop_timer t st) = None.
Proof.
  unfold stop_timer. destruct (get_timer t st) eqn:Ht; [|done]. by destruct t.
Qed.

Lemma stop_timer_get_ne t t' st :
  t <> t' -> get_timer t' (stop_timer t st) = get_timer t' st.
Proof.
  intros Hne. unfold stop_timer. destruct (get_timer t st); [|done].
  by destruct t, t'.
Qed.

(** ** disconnect *)


Lemma disconnect_fields st r :
  ssn (disconnect st r) = 0 /\ rsn (disconnect st r) = 0 /\ k (disconnect st r) = 0 /\
  w (disconnect st r) = 0 /\ send_list (disconnect st r) = [].
Proof. unfold disconnect. simpl. done. Qed.

Lemma disconnect_timers st r t : get_timer t (disconnect st r) = None.
Proof.
  unfold disconnect.
  set (s0 := disconnect_arm st r).
  assert (H1 : get_timer TimerT1 (stop_timer TimerT1 s0) = None) by apply stop_timer_get.
  set (s1 := stop_timer TimerT1 s0) in *.
  assert (H2 : get_timer TimerT2 (stop_timer TimerT2 s1) = None) by apply stop_timer_get.
  assert (H1' : get_timer TimerT1 (stop_timer TimerT2 s1) = None)
    by (by rewrite stop_timer_get_ne).
  set (s2 := stop_timer TimerT2 s1) in *.
  assert (H3 : get_timer TimerT3 (stop_timer TimerT3 s2) = None) by apply stop_timer_get.
  assert (H2' : get_timer TimerT2 (stop_timer TimerT3 s2) = None)
    by (by rewrite stop_timer_get_ne).
  assert (H1'' : get_timer TimerT1 (stop_timer TimerT3 s2) = None)
    by (by rewrite stop_timer_get_ne).
  set (s3 := stop_timer TimerT3 s2) in *.
  destruct t; simpl in *; by case_match.
Qed.



(** ** Sequence numbers on receive *)

(** C1. With [rsn] at 32767 an I-frame carrying the expected send number
    32767 is accepted and [receive] leaves [rsn] at 32768: the increment
    of line 136 does not wrap, while [inc_rsn] on the same state gives 0. *)
Theorem receive_rsn_leaves_15_bits :
  (forall st r a, rsn (check_seq (set_rsn 32767 st) (FrameI 32767 r a)).1 = 32768) /\
  (forall st, rsn (inc_rsn (set_rsn 32767 st)) = 0) /\
  rsn (receive (set_rsn 32767 started) (GotFrame (spont_point 32767 0)) 0) = 32768.
Proof.
  split; [|split].
  - intros st r a. unfold check_seq. simpl.
    by destruct (ssn st <? r).
  - done.
  - by vm_compute.
Qed.

(** ** Addresses of sequential elements *)

Lemma collect_pairs_skip a now idx d rest :
  iv_invalid d = true -> collect_pairs a now idx (d :: rest) = collect_pairs a now idx rest.
Proof. intros Hd. simpl. by rewrite Hd. Qed.

(** C2. For the SQ=1 frame with start address 100 whose first element is
    invalid, the loop of [handle_i] gives the elements at positions 1 and
    2 the addresses 100 and 101, not 101 and 102: a skipped element does
    not advance the counter. *)
Theorem sq1_skip_shifts_addresses (now : Z) :
  collect_pairs seq_asdu now 0 (data seq_asdu) = Some [(now, 100, 20); (now, 101, 30)] /\
  processed (receive started (GotFrame (FrameI 0 0 seq_asdu)) now) =
    [(MData, list_to_set [(now, 100, 20); (now, 101, 30)])].
Proof. split; reflexivity. Qed.

(** ** Term creation *)

(** C9. A successful term creation publishes the body on the channel of
    line 307, which ends in a double quote and so differs from
    CHANNEL:TERM_ADD, the channel [update_term] publishes on. *)
Theorem create_term_channel (db db' : APIServer.Redis) (request : APIServer.Request)
    (resp : APIServer.Response) :
  APIServer.create_term db request = (db', resp) ->
  APIServer.status resp = 200 ->
  APIServer.channels db' =
    APIServer.channels db ++ [(APIServer.term_add_channel, APIServer.req_body request)] /\
  APIServer.term_add_channel <> "CHANNEL:TERM_ADD"%string /\
  APIServer.channels (APIServer.update_term_readd (APIServer.req_body request) db) =
    APIServer.channels db ++ [("CHANNEL:TERM_ADD"%string, APIServer.req_body request)].
Proof.
  unfold APIServer.create_term, APIServer.bad_request.
  intros Hc Hs.
  repeat case_match; simplify_eq; simpl in *; try done.
Qed.

Lemma create_term_channel_witness :
  APIServer.channels (APIServer.create_term empty_db new_term).1 =
    [(APIServer.term_add_channel, "{id: 1, device_id: 7}"%string)] /\
  APIServer.term_add_channel <> "CHANNEL:TERM_ADD"%string.
Proof.
  destruct (create_term_channel empty_db (APIServer.create_term empty_db new_term).1 new_term
              (APIServer.create_term empty_db new_term).2) as (H1 & H2 & _).
  - by vm_compute.
  - by vm_compute.
  - split; [exact H1 | exact H2].
Defined.

(** ** The primitives as updates

    Stopping a timer only touches the loop and the timer's attribute;
    written as two updates, the other attributes are read through it by
    computation. *)

Lemma stop_timer_alt t st :
  stop_timer t st =
  set_timer t None (set_loop (cancel_opt (get_timer t st) (loop st)) st).
Proof.
  unfold stop_timer. destruct st, t; simpl; by case_match; simplify_eq/=.
Qed.

Lemma status_off_alt st :
  (if connected st then set_connected false st else st) = set_connected false st.
Proof. destruct st; simpl. by case_match. Qed.

Ltac norm :=
  repeat first [rewrite !stop_timer_alt | rewrite !status_off_alt]; simpl.

Lemma timer_live_snoc st h x :
  (h < length (loop st))%nat ->
  timer_live (set_loop (loop st ++ [x]) st) h = timer_live st h.
Proof. intros Hlt. unfold timer_live. simpl. by rewrite lookup_app_l. Qed.

Lemma cancel_opt_length oh l : length (cancel_opt oh l) = length l.
Proof. destruct oh; simpl; [apply length_alter|done]. Qed.

Lemma cancel_opt_lookup_ne oh (l : list Scheduled) h :
  oh <> Some h -> cancel_opt oh l !! h = l !! h.
Proof.
  destruct oh as [h'|]; simpl; [|done].
  intros Hne. apply list_lookup_alter_ne. congruence.
Qed.

Lemma disconnect_armed st :
  reconnect_handler st = None ->
  connect_retry_count (disconnect st true) = connect_retry_count st + 1 /\
  reconnect_handler (disconnect st true) = Some (length (loop st)) /\
  user_canceled (disconnect st true) = user_canceled st.
Proof.
  intros Hr. unfold disconnect. norm. unfold disconnect_arm. simpl. by rewrite Hr.
Qed.

(** ** Supervisory and information frames: the peer's receive number *)

(** C5, as the code has it. A received S-frame whose receive number does
    not exceed [ssn] only updates [k]: T1 keeps running, [send_list] is
    left as it is and nothing is written. *)
Theorem receive_s_only_updates_k (st : Device) (r now : Z) :
  r <= ssn st ->
  let st' := receive st (GotFrame (FrameS r)) now in
  k st' = ssn st - r /\
  t1 st' = t1 st /\
  (t1 st <> t3 st -> in_loop st (t1 st) -> handle_live st' (t1 st) = handle_live st (t1 st)) /\
  send_list st' = send_list st /\ wire st' = wire st /\
  ssn st' = ssn st /\ rsn st' = rsn st /\ w st' = w st.
Proof.
  intros Hr st'. subst st'. unfold receive, check_seq.
  assert (Hs : ssn (create_task (ActSaveFrame (FrameS r) false) (receive_head st)) = ssn st).
  { unfold receive_head, start_timer. by norm. }
  rewrite Hs. simpl APCI2. simpl APCI1.
  destruct (Z.ltb_spec (ssn st) r) as [?|_]; [lia|].
  unfold receive_head, start_timer. norm.
  repeat split; try done.
  intros Hne Hin. destruct (t1 st) as [h|] eqn:H1; [|done]. simpl.
  specialize (Hin h eq_refl). unfold timer_live. simpl.
  rewrite <- !app_assoc. rewrite lookup_app_l by (by rewrite cancel_opt_length).
  by rewrite cancel_opt_lookup_ne.
Qed.

Lemma receive_s_only_updates_k_witness :
  1 <= ssn polling /\
  k (receive polling (GotFrame (FrameS 1)) 0) = ssn polling - 1 /\
  send_list (receive polling (GotFrame (FrameS 1)) 0) = send_list polling.
Proof.
  split; [by vm_compute|].
  destruct (receive_s_only_updates_k polling 1 0) as (Hk & _ & _ & Hl & _).
  - by vm_compute.
  - split; [exact Hk | exact Hl].
Defined.

(** C5, as stated, fails: with a command outstanding and T1 running, a
    valid S-frame neither stops T1 nor sends anything. *)
Lemma s_frame_does_not_stop_t1 :
  let st' := receive polling (GotFrame (FrameS 1)) 0 in
  1 <= ssn polling /\ send_list polling <> [] /\
  is_Some (t1 st') /\ handle_live st' (t1 st') = true /\
  emitted polling st' = [] /\ send_list st' = send_list polling.
Proof. by_eval. Qed.

Lemma receive_head_fields st :
  ssn (receive_head st) = ssn st /\ k (receive_head st) = k st /\
  reconnect_handler (receive_head st) = reconnect_handler st /\
  connect_retry_count (receive_head st) = connect_retry_count st /\
  length (loop (receive_head st)) = (length (loop st) + 2)%nat.
Proof.
  unfold receive_head, start_timer. norm. repeat split; try done.
  rewrite !length_app, cancel_opt_length. simpl. lia.
Qed.

Lemma check_seq_fields st f :
  ssn (check_seq st f).1 = ssn st /\
  reconnect_handler (check_seq st f).1 = reconnect_handler st /\
  connect_retry_count (check_seq st f).1 = connect_retry_count st /\
  loop (check_seq st f).1 = loop st.
Proof.
  unfold check_seq. destruct (ssn st <? APCI2 f), (APCI1 f); simpl; try done;
    by case_bool_decide.
Qed.

Lemma check_seq_k st f :
  (APCI2 f <= ssn st -> k (check_seq st f).1 = ssn st - APCI2 f) /\
  (ssn st < APCI2 f -> (check_seq st f).2 = true /\ k (check_seq st f).1 = k st).
Proof.
  unfold check_seq.
  destruct (Z.ltb_spec (ssn st) (APCI2 f)); (split; [intros ?|intros ?]); try lia;
    destruct (APCI1 f); simpl; try case_bool_decide; simpl; auto.
Qed.

Lemma receive_bad_frame st f now :
  (forall u, f <> FrameU u) ->
  ssn st < APCI2 f ->
  receive st (GotFrame f) now =
    let st1 := (check_seq (create_task (ActSaveFrame f false) (receive_head st)) f).1 in
    match reconnect_handler st1 with
    | None => disconnect st1 true
    | Some _ => st1
    end.
Proof.
  intros Hnu Hlt. unfold receive. cbv zeta.
  set (st0 := create_task _ (receive_head st)).
  assert (Hs0 : ssn st0 = ssn st) by (by destruct (receive_head_fields st) as (? & _)).
  destruct (check_seq_k st0 f) as [_ Hbad]. rewrite Hs0 in Hbad.
  destruct (Hbad Hlt) as [Hb _]. clearbody st0.
  destruct f as [u|r|s r a]; [by destruct (Hnu u)| |];
    destruct (check_seq st0 _) as [s1 b]; simpl in *; by subst b.
Qed.

(** C3, as the code has it. The peer's receive number is compared with
    [ssn] as a plain integer.  When it does not exceed [ssn], [k] becomes
    their difference; when it does, whether or not [ssn] has wrapped, the
    frame is bad, the check leaves [k] alone, and unless a reconnect is
    pending the session disconnects and schedules one. *)
Theorem peer_rsn_plain_comparison (st : Device) (f : Frame) (now : Z) :
  let st0 := create_task (ActSaveFrame f false) (receive_head st) in
  (APCI2 f <= ssn st -> k (check_seq st0 f).1 = ssn st - APCI2 f) /\
  (ssn st < APCI2 f ->
     (check_seq st0 f).2 = true /\ k (check_seq st0 f).1 = k st /\
     ((forall u, f <> FrameU u) -> reconnect_handler st = None ->
        let st' := receive st (GotFrame f) now in
        connect_retry_count st' = connect_retry_count st + 1 /\
        is_Some (reconnect_handler st') /\ k st' = 0 /\ send_list st' = [])).
Proof.
  intros st0.
  destruct (receive_head_fields st) as (Hs & Hk & Hrh & Hc & _).
  assert (H0 : ssn st0 = ssn st /\ k st0 = k st /\
               reconnect_handler st0 = reconnect_handler st /\
               connect_retry_count st0 = connect_retry_count st).
  { subst st0. unfold create_task, call_later. cbn. by rewrite Hs, Hk, Hrh, Hc. }
  destruct H0 as (Hs0 & Hk0 & Hrh0 & Hc0).
  destruct (check_seq_k st0 f) as [Hok Hbad]. rewrite Hs0, Hk0 in *.
  split; [exact Hok|]. intros Hlt.
  destruct (Hbad Hlt) as [Hb Hkk]. split; [exact Hb|]. split; [exact Hkk|].
  intros Hnu Hnone st'. subst st'. rewrite (receive_bad_frame st f now Hnu Hlt).
  cbv zeta. fold st0.
  destruct (check_seq_fields st0 f) as (_ & Hrh1 & Hc1 & _).
  rewrite Hrh0 in Hrh1. rewrite Hc0 in Hc1. rewrite Hnone in Hrh1.
  set (st1 := (check_seq st0 f).1) in *. clearbody st1. rewrite Hrh1.
  destruct (disconnect_armed st1 Hrh1) as (Hcrc & Hrh2 & _).
  destruct (disconnect_fields st1 true) as (_ & _ & Hk2 & _ & Hl2).
  rewrite Hcrc, Hrh2, Hc1, Hk2, Hl2. repeat split. by eexists.
Qed.

Lemma peer_rsn_plain_comparison_witness :
  APCI2 (FrameS 1) <= ssn polling /\
  k (check_seq (create_task (ActSaveFrame (FrameS 1) false) (receive_head polling))
       (FrameS 1)).1 = ssn polling - APCI2 (FrameS 1).
Proof.
  assert (Hle : APCI2 (FrameS 1) <= ssn polling) by (by vm_compute).
  split; [exact Hle|].
  pose proof (peer_rsn_plain_comparison polling (FrameS 1) 0) as H.
  cbv zeta in H. destruct H as [H _]. exact (H Hle).
Defined.

(** C3, as stated, fails: after [ssn] wrapped to 0 with one frame
    outstanding, the acknowledgement 32767 is 1 behind modulo 32768, yet
    the session treats it as fatal: it disconnects, which zeroes [k], and
    schedules a reconnect. *)
Lemma wrapped_ack_is_fatal :
  let st' := receive wrapped (GotFrame (FrameS 32767)) 0 in
  ssn wrapped = 0 /\ k wrapped = 1 /\ (ssn wrapped - 32767) `mod` 32768 = 1 /\
  k st' <> (ssn wrapped - 32767) `mod` 32768 /\
  connect_retry_count st' = connect_retry_count wrapped + 1 /\
  handle_live st' (reconnect_handler st') = true /\
  reconnect_armed st' = true.
Proof. by_eval. Qed.

(** ** Reconnection *)

Lemma dead_cancel_opt_mono oh (l : list Scheduled) h : dead l h -> dead (cancel_opt oh l) h.
Proof. destruct oh; simpl; [apply dead_alter_mono|done]. Qed.

Lemma disconnect_by_user st :
  user_canceled (disconnect st false) = true /\
  reconnect_handler (disconnect st false) = reconnect_handler st /\
  connect_retry_count (disconnect st false) = connect_retry_count st /\
  handle_live (disconnect st false) (reconnect_handler st) = false.
Proof.
  unfold disconnect. norm. unfold disconnect_arm. simpl.
  destruct (reconnect_handler st) as [h|] eqn:Hr; simpl; repeat split; try done.
  apply timer_live_false. simpl.
  do 3 apply dead_cancel_opt_mono. apply dead_alter_same.
Qed.

Lemma disconnect_arms_timer st :
  in_loop st (t1 st) -> in_loop st (t2 st) -> in_loop st (t3 st) ->
  reconnect_handler st = None ->
  loop (disconnect st true) !! length (loop st) =
    Some {| sch_delay := 3; sch_action := ActReconnect; sch_cancelled := false |}.
Proof.
  intros H1 H2 H3 Hr. unfold disconnect. norm. unfold disconnect_arm. simpl. rewrite Hr. simpl.
  rewrite !cancel_opt_lookup_ne.
  - by rewrite list_lookup_middle.
  - intros E. specialize (H1 _ E). lia.
  - intros E. specialize (H2 _ E). lia.
  - intros E. specialize (H3 _ E). lia.
Qed.

(** C4, as the code has it. A failure-driven [disconnect] made while no
    reconnect is pending arms a one-shot timer at +3 s whose callback is
    the next connection attempt.  The disconnect taken after a received
    STOPDT_ACT is the user's kind: it sets [user_canceled], and whatever
    [reconnect_handler] then holds cannot fire. *)
Theorem reconnect_timer_policy (st : Device) (now : Z) :
  (handles_ok st -> reconnect_handler st = None ->
     exists h, reconnect_handler (disconnect st true) = Some h /\
       loop (disconnect st true) !! h =
         Some {| sch_delay := 3; sch_action := ActReconnect; sch_cancelled := false |}) /\
  (let st' := receive st (GotFrame (FrameU STOPDT_ACT)) now in
   user_canceled st' = true /\ handle_live st' (reconnect_handler st') = false).
Proof.
  split.
  - intros (H1 & H2 & H3 & _) Hr. exists (length (loop st)). split.
    + by destruct (disconnect_armed st Hr) as (_ & -> & _).
    + by apply disconnect_arms_timer.
  - unfold receive. cbn. unfold handle_u. cbn zeta.
    set (s := send_frame _ _ _).
    destruct (disconnect_by_user s) as (Hu & Hrh & _ & Hl).
    by rewrite Hrh.
Qed.

(** The handles of a sample session name entries of its loop. *)
Ltac handles_ok_eval :=
  repeat split; intros ? [=]; subst; vm_compute; lia.

Lemma started_handles_ok : handles_ok started.
Proof. handles_ok_eval. Qed.

Lemma reconnect_timer_policy_witness :
  handles_ok started /\ reconnect_handler started = None /\
  exists h, reconnect_handler (disconnect started true) = Some h /\
    loop (disconnect started true) !! h =
      Some {| sch_delay := 3; sch_action := ActReconnect; sch_cancelled := false |}.
Proof.
  split; [handles_ok_eval|]. split; [reflexivity|].
  apply (reconnect_timer_policy started 0); [handles_ok_eval | reflexivity].
Defined.

(** C4, as stated, fails: a started session that receives STOPDT_ACT
    answers STOPDT_CON and disconnects with no reconnect timer armed. *)
Lemma stopdt_act_arms_no_reconnect :
  let st' := receive started (GotFrame (FrameU STOPDT_ACT)) 0 in
  user_canceled started = false /\
  emitted started st' = [FrameU STOPDT_CON] /\
  ssn st' = 0 /\ send_list st' = [] /\ wr_closed <$> writer st' = Some true /\
  user_canceled st' = true /\
  reconnect_handler st' = None /\ reconnect_armed st' = false.
Proof. by_eval. Qed.

(** ** The retry counter *)

Lemma crc_disconnect st r : connect_retry_count st <= connect_retry_count (disconnect st r).
Proof.
  unfold disconnect. norm. unfold disconnect_arm.
  destruct r, (reconnect_handler st) eqn:Hr; simpl; rewrite ?Hr; simpl; lia.
Qed.

Lemma crc_or_reconnect o :
  connect_retry_count (outcome_state o) <= connect_retry_count (or_reconnect o).
Proof. destruct o; simpl; [lia|apply crc_disconnect]. Qed.

Lemma crc_write_frame f st :
  connect_retry_count (outcome_state (write_frame f st)) = connect_retry_count st.
Proof. unfold write_frame. destruct (writer st) as [wr|]; [|done]. by destruct (wr_broken wr). Qed.

Lemma crc_and_then o g n :
  connect_retry_count (outcome_state o) = n ->
  (forall s, connect_retry_count s = n -> connect_retry_count (outcome_state (g s)) = n) ->
  connect_retry_count (outcome_state (and_then o g)) = n.
Proof. destruct o; simpl; auto. Qed.

(** Conditionals are split, timers and tasks are read through. *)
Ltac split_ifs :=
  repeat first
    [ progress (unfold start_timer, create_task, call_later, inc_ssn; norm)
    | match goal with |- context [if ?c then _ else _] => destruct c end ].

Lemma crc_send_frame_try st f c :
  connect_retry_count (outcome_state (send_frame_try st f c)) = connect_retry_count st.
Proof.
  unfold send_frame_try. destruct f as [u|r|s r a].
  - destruct (negb c || is_nil (send_list st)).
    + apply crc_and_then; [apply crc_write_frame|]. intros s0 Hs0. by split_ifs.
    + by split_ifs.
  - apply crc_and_then; [rewrite crc_write_frame; by norm|]. intros s0 Hs0. by split_ifs.
  - destruct (negb c || is_nil (send_list st) || negb (asdu_Cause a =? Cause.act)).
    + apply crc_and_then; [rewrite crc_write_frame; by norm|]. intros s0 Hs0. by split_ifs.
    + by split_ifs.
Qed.

Lemma crc_send_frame st f c : connect_retry_count st <= connect_retry_count (send_frame st f c).
Proof.
  destruct f as [f|]; unfold send_frame; [|lia].
  rewrite <- (crc_send_frame_try st f c) at 1. apply crc_or_reconnect.
Qed.

Lemma crc_send_head st : connect_retry_count st <= connect_retry_count (send_head st).
Proof.
  unfold send_head. destruct (send_list st) as [|f l]; [lia|].
  pose proof (crc_send_frame st (Some f) false).
  by case_match.
Qed.

Lemma crc_check_to_send st f : connect_retry_count st <= connect_retry_count (check_to_send st f).
Proof.
  unfold check_to_send. etrans; [|apply crc_or_reconnect].
  unfold check_to_send_try. rewrite stop_timer_alt.
  set (s := set_timer _ _ _).
  assert (Hs : connect_retry_count st = connect_retry_count s) by done.
  assert (Hp : connect_retry_count st <= connect_retry_count (send_head (popleft s))).
  { etrans; [|apply crc_send_head]. simpl. lia. }
  rewrite Hs at 1. clearbody s.
  repeat case_match; simpl; try lia; by rewrite <- Hs.
Qed.

Lemma crc_run_task st now : connect_retry_count st <= connect_retry_count (run_task st now).
Proof.
  unfold run_task, call_later.
  set (s0 := set_last_call_all_time_end _ st).
  assert (H0 : connect_retry_count st = connect_retry_count s0) by done.
  rewrite H0. clearbody s0.
  match goal with |- context [if ?c then ?a else ?b] => set (s1 := if c then a else b) end.
  assert (H1 : connect_retry_count s0 <= connect_retry_count s1).
  { subst s1. case_match; [|lia].
    do 3 (etrans; [|apply crc_send_frame]). simpl. lia. }
  clearbody s1. etrans; [exact H1|].
  destruct (task_handler s1); simpl; lia.
Qed.

Lemma crc_handle_i st f now : connect_retry_count st <= connect_retry_count (handle_i st f now).
Proof.
  unfold handle_i. etrans; [|apply crc_or_reconnect].
  unfold handle_i_try, start_timer, call_later. rewrite stop_timer_alt.
  set (s0 := set_timer _ _ _).
  assert (H0 : connect_retry_count st = connect_retry_count s0) by (subst s0; by simpl).
  rewrite H0. clearbody s0.
  destruct f as [u|r|s r a]; simpl; [lia|lia|].
  set (s1 := if _ <=? w s0 then _ else _).
  assert (H1 : connect_retry_count s0 <= connect_retry_count s1).
  { subst s1. case_match; [apply crc_send_frame|lia]. }
  clearbody s1. etrans; [exact H1|].
  set (s2 := if _ || _ then _ else _).
  assert (H2 : connect_retry_count s1 = connect_retry_count s2).
  { subst s2. case_match; [|done]. unfold create_task, call_later. by norm. }
  rewrite H2. clearbody s2.
  pose proof (crc_send_frame s2 (Some (FrameI s r (execute_of a))) true).
  repeat case_match; simpl; lia.
Qed.

Lemma crc_drop_own u st : connect_retry_count (drop_own u st) = connect_retry_count st.
Proof.
  unfold drop_own, popleft.
  destruct (send_list st) as [|[u'| |] l]; try done.
  case_bool_decide; [|done]. by norm.
Qed.

Lemma crc_handle_u st u : connect_retry_count st <= connect_retry_count (handle_u st u).
Proof.
  unfold handle_u, create_task, call_later.
  destruct u; cbn.
  - etrans; [|apply crc_send_frame]. by rewrite crc_drop_own.
  - lia.
  - set (s := send_frame _ _ _).
    destruct (disconnect_by_user s) as (_ & _ & -> & _). apply crc_send_frame.
  - set (s := stop_timer _ _).
    destruct (disconnect_by_user s) as (_ & _ & -> & _). subst s. by norm.
  - etrans; [|apply crc_send_frame]. by rewrite crc_drop_own.
  - lia.
Qed.

Lemma crc_receive st inc now : connect_retry_count st <= connect_retry_count (receive st inc now).
Proof.
  unfold receive.
  destruct (receive_head_fields st) as (_ & _ & _ & Hh & _).
  destruct inc as [f| | | |]; try apply crc_disconnect.
  - set (s0 := create_task _ _).
    assert (H0 : connect_retry_count st = connect_retry_count s0) by (by rewrite <- Hh).
    rewrite H0. clearbody s0.
    destruct f as [u|r|s r a]; [apply crc_handle_u| |].
    + destruct (check_seq_fields s0 (FrameS r)) as (_ & _ & Hc & _).
      destruct (check_seq s0 _) as [s1 b]. simpl in Hc. rewrite <- Hc.
      pose proof (crc_disconnect s1 true). repeat case_match; lia.
    + destruct (check_seq_fields s0 (FrameI s r a)) as (_ & _ & Hc & _).
      destruct (check_seq s0 _) as [s1 b]. simpl in Hc. rewrite <- Hc.
      pose proof (crc_disconnect s1 true). pose proof (crc_handle_i s1 (FrameI s r a) now).
      repeat case_match; lia.
  - pose proof (crc_disconnect st true). repeat case_match; lia.
  - rewrite <- Hh. apply crc_disconnect.
Qed.

Lemma crc_reconnect st res : connect_retry_count st <= connect_retry_count (reconnect st res).
Proof.
  unfold reconnect, call_later. destruct res; cbv zeta.
  - etrans; [|apply crc_send_frame]. cbn. lia.
  - etrans; [|apply crc_disconnect]. cbn. lia.
  - etrans; [|apply crc_disconnect]. cbn. lia.
Qed.

(** C6, as the code has it. The counter grows by one exactly when a
    failure-driven [disconnect] schedules a reconnect, and no event of
    the session ever lowers it: it is not cleared when the session
    starts. *)
Theorem connect_retry_count_never_reset (now : Z) (st : Device) (ev : Event) :
  connect_retry_count st <= connect_retry_count (step now st ev) /\
  (reconnect_handler st = None ->
     connect_retry_count (disconnect st true) = connect_retry_count st + 1) /\
  (is_Some (reconnect_handler st) ->
     connect_retry_count (disconnect st true) = connect_retry_count st) /\
  connect_retry_count (disconnect st false) = connect_retry_count st.
Proof.
  split; [|split; [|split]].
  - destruct ev; simpl.
    + apply crc_reconnect.
    + apply crc_receive.
    + unfold on_timer1, call_soon, call_later. case_match; simpl; lia.
    + by unfold on_timer2, create_task.
    + by unfold on_timer3, create_task.
    + apply crc_run_task.
    + apply crc_check_to_send.
    + apply crc_send_frame.
    + apply crc_disconnect.
  - intros Hr. by destruct (disconnect_armed st Hr) as (-> & _).
  - intros [h Hh]. unfold disconnect. norm. unfold disconnect_arm. simpl. by rewrite Hh.
  - by destruct (disconnect_by_user st) as (_ & _ & -> & _).
Qed.

Lemma connect_retry_count_never_reset_witness :
  reconnect_handler started = None /\
  connect_retry_count (disconnect started true) = connect_retry_count started + 1.
Proof.
  split; [reflexivity|].
  apply (connect_retry_count_never_reset 0 started (EvDisconnect true)). reflexivity.
Defined.

(** C6, as stated, fails: after one failed attempt the session connects,
    sends STARTDT_ACT and receives STARTDT_CON, and the counter still
    reads 1. *)
Lemma retry_count_kept_when_started :
  connect_retry_count retried = 1 /\
  connected retried = true /\ wire retried = [FrameU STARTDT_ACT] /\
  send_list retried = [] /\ reconnect_handler retried = None /\
  connect_retry_count retried <> 0.
Proof. by_eval. Qed.

(** ** The periodic scheduler *)

(** What [send_frame] does with a command built from the current
    sequence numbers when the connection works: the command is queued,
    and written only if nothing was waiting. *)
Lemma send_act_healthy st typ :
  healthy st = true ->
  let f := init_frame_i (ssn st) (rsn st) typ Cause.act in
  let st' := send_frame st (Some f) true in
  healthy st' = true /\
  send_list st' = send_list st ++ [f] /\
  wire st' = wire st ++ (if is_nil (send_list st) then [f] else []) /\
  last_call_all_time_begin st' = last_call_all_time_begin st /\
  last_call_all_time_end st' = last_call_all_time_end st /\
  coll_interval st' = coll_interval st /\
  task_handler st' = task_handler st /\
  (length (loop st) <= length (loop st'))%nat.
Proof.
  intros Hh f st'. subst f st'. unfold healthy in *.
  destruct (writer st) as [wr|] eqn:Hw; [|done].
  destruct (wr_broken wr) eqn:Hb; [done|].
  unfold send_frame, or_reconnect, send_frame_try, init_frame_i.
  cbn [asdu_Cause]. rewrite Z.eqb_refl.
  destruct (send_list st) as [|x l] eqn:Hl; cbn [negb orb andb is_nil].
  - rewrite stop_timer_alt. unfold write_frame. cbn. rewrite Hw, Hb. cbn.
    unfold start_timer, create_task, call_later, inc_ssn. norm.
    rewrite ?Hw, ?Hb, ?Hl. repeat split; try done.
    rewrite !length_app, !cancel_opt_length. lia.
  - cbn. rewrite ?Hw, ?Hb, ?Hl, ?app_nil_r. done.
Qed.

Lemma is_nil_snoc {A} (l : list A) x : is_nil (l ++ [x]) = false.
Proof. by destruct l. Qed.

(** C8, as the code has it. When the interrogation is due and the
    connection works, [run_task] records [now] and hands the three
    commands to [send_frame] in order: all three join [send_list], and
    only the clock synchronisation is written at once, and only if
    nothing was waiting for a confirmation.  The previous task handle is
    cancelled and a new one-shot timer is armed. *)
Theorem run_task_queues_three (st : Device) (now : Z) :
  healthy st = true ->
  in_loop st (task_handler st) ->
  default now (last_call_all_time_end st) + coll_interval st <= now ->
  let st' := run_task st now in
  last_call_all_time_begin st' = Some now /\
  (exists s1 r1 s2 r2 s3 r3,
     send_list st' = send_list st ++
       [init_frame_i s1 r1 TYP.C_CS_NA_1 Cause.act;
        init_frame_i s2 r2 TYP.C_IC_NA_1 Cause.act;
        init_frame_i s3 r3 TYP.C_CI_NA_1 Cause.act]) /\
  emitted st st' =
    (if is_nil (send_list st) then [init_frame_i (ssn st) (rsn st) TYP.C_CS_NA_1 Cause.act]
     else []) /\
  handle_live st' (task_handler st) = false /\
  exists h, task_handler st' = Some h /\
    loop st' !! h =
      Some {| sch_delay :=
                timedelta_seconds (default now (last_call_all_time_end st) + coll_interval st - now);
              sch_action := ActRunTask; sch_cancelled := false |}.
Proof.
  intros Hh Hin Hdue st'. subst st'. unfold run_task.
  set (e := default now (last_call_all_time_end st)) in *.
  set (s0 := set_last_call_all_time_end (Some e) st).
  change (coll_interval s0) with (coll_interval st).
  destruct (Z.leb_spec (e + coll_interval st) now) as [_|?]; [|lia].
  set (s1 := set_last_call_all_time_begin (Some now) s0).
  assert (Hh1 : healthy s1 = true) by done.
  destruct (send_act_healthy s1 TYP.C_CS_NA_1 Hh1) as (Hh2 & Hl2 & Hw2 & Hb2 & He2 & Hc2 & Ht2 & Hn2).
  set (s2 := send_frame s1 _ true) in *.
  destruct (send_act_healthy s2 TYP.C_IC_NA_1 Hh2) as (Hh3 & Hl3 & Hw3 & Hb3 & He3 & Hc3 & Ht3 & Hn3).
  set (s3 := send_frame s2 _ true) in *.
  destruct (send_act_healthy s3 TYP.C_CI_NA_1 Hh3) as (Hh4 & Hl4 & Hw4 & Hb4 & He4 & Hc4 & Ht4 & Hn4).
  set (s4 := send_frame s3 _ true) in *.
  clearbody s2 s3 s4.
  assert (Ht : task_handler s4 = task_handler st) by (by rewrite Ht4, Ht3, Ht2).
  assert (Hn : (length (loop st) <= length (loop s4))%nat)
    by (change (loop st) with (loop s1); lia).
  set (s5 := match task_handler s4 with Some h => cancel h s4 | None => s4 end).
  assert (H5 : last_call_all_time_begin s5 = Some now /\
               send_list s5 = send_list s4 /\ wire s5 = wire s4 /\
               last_call_all_time_end s5 = Some e /\ coll_interval s5 = coll_interval st /\
               loop s5 = cancel_opt (task_handler st) (loop s4)).
  { subst s5. rewrite <- Ht. destruct (task_handler s4); simpl;
      by rewrite ?Hb4, ?Hb3, ?Hb2, ?He4, ?He3, ?He2, ?Hc4, ?Hc3, ?Hc2. }
  destruct H5 as (Hb5 & Hl5 & Hw5 & He5 & Hc5 & Hloop5).
  clearbody s5. unfold call_later. simpl. rewrite He5, Hc5. simpl.
  repeat split.
  - done.
  - exists (ssn s1), (rsn s1), (ssn s2), (rsn s2), (ssn s3), (rsn s3).
    rewrite Hl5, Hl4, Hl3, Hl2. by rewrite <- !app_assoc.
  - unfold emitted. simpl. rewrite Hw5, Hw4, Hw3, Hw2.
    rewrite Hl3, Hl2, !is_nil_snoc, !app_nil_r.
    change (wire s1) with (wire st). change (send_list s1) with (send_list st).
    by rewrite drop_app_length.
  - apply handle_live_false. intros h Hth. simpl. rewrite Hloop5, Hth. simpl.
    apply dead_snoc; [|apply dead_alter_same].
    rewrite length_alter. specialize (Hin h Hth). lia.
  - exists (length (loop s5)). split; [done|]. by rewrite list_lookup_middle.
Qed.

Lemma run_task_queues_three_witness :
  healthy started = true /\
  default 900000000 (last_call_all_time_end started) + coll_interval started <= 900000000 /\
  last_call_all_time_begin (run_task started 900000000) = Some 900000000.
Proof.
  split; [reflexivity|]. split; [by vm_compute|].
  apply (run_task_queues_three started 900000000).
  - reflexivity.
  - intros ? [=]; subst; vm_compute; lia.
  - by vm_compute.
Defined.

(** C8, as stated, fails: on a started session with an empty queue the
    due scheduler writes one I-frame, the clock synchronisation; the two
    interrogations stay in [send_list] behind it. *)
Lemma run_task_writes_one_frame :
  send_list started = [] /\ healthy started = true /\
  polling = run_task started 900000000 /\
  emitted started polling = [init_frame_i 0 0 TYP.C_CS_NA_1 Cause.act] /\
  length (emitted started polling) <> 3%nat /\
  send_list polling =
    [init_frame_i 0 0 TYP.C_CS_NA_1 Cause.act; init_frame_i 1 0 TYP.C_IC_NA_1 Cause.act;
     init_frame_i 1 0 TYP.C_CI_NA_1 Cause.act].
Proof. by_eval. Qed.

(** ** The acknowledgement window *)

Lemma disconnect_wire st r : wire (disconnect st r) = wire st.
Proof.
  unfold disconnect. norm. unfold disconnect_arm.
  destruct r, (reconnect_handler st) eqn:Hr; simpl; by rewrite ?Hr.
Qed.






Lemma check_seq_accept st r a :
  r <= ssn st ->
  check_seq st (FrameI (rsn st) r a) =
    (set_w (w st + 1) (set_rsn (rsn st + 1) (set_k (ssn st - r) st)), false).
Proof.
  intros Hr. unfold check_seq. cbn.
  destruct (Z.ltb_spec (ssn st) r); [lia|]. cbn.
  by rewrite bool_decide_eq_true_2.
Qed.

Lemma receive_accept st r a now :
  r <= ssn st ->
  receive st (GotFrame (FrameI (rsn st) r a)) now =
    let st0 := create_task (ActSaveFrame (FrameI (rsn st) r a) false) (receive_head st) in
    handle_i (set_w (w st + 1) (set_rsn (rsn st + 1) (set_k (ssn st - r) st0)))
      (FrameI (rsn st) r a) now.
Proof.
  intros Hr. unfold receive. cbv zeta.
  set (st0 := create_task _ (receive_head st)).
  assert (H0 : ssn st0 = ssn st /\ rsn st0 = rsn st /\ w st0 = w st).
  { subst st0. unfold receive_head, start_timer, create_task, call_later. by norm. }
  destruct H0 as (Hs0 & Hr0 & Hw0).
  pose proof (check_seq_accept st0 r a) as Hc.
  rewrite Hs0, Hr0, Hw0 in Hc. rewrite Hc by done. done.
Qed.




(** * Further properties of the session engine *)

(** ** Sequence counters *)

Lemma inc_ssn_mod st :
  0 <= ssn st < 32768 -> ssn (inc_ssn st) = (ssn st + 1) `mod` 32768.
Proof.
  intros Hr. unfold inc_ssn. cbn.
  destruct (Z.ltb_spec (ssn st) 32767).
  - by rewrite Z.mod_small by lia.
  - replace (ssn st) with 32767 by lia. done.
Qed.

Lemma inc_rsn_mod st :
  0 <= rsn st < 32768 -> rsn (inc_rsn st) = (rsn st + 1) `mod` 32768.
Proof.
  intros Hr. unfold inc_rsn. cbn.
  destruct (Z.ltb_spec (rsn st) 32767).
  - by rewrite Z.mod_small by lia.
  - replace (rsn st) with 32767 by lia. done.
Qed.

(** From a 15-bit value, [n] calls of [inc_ssn] (of [inc_rsn]) give the
    start value plus [n] modulo 32768: the counter stays in range and
    returns to its start after 32768 calls. *)
Theorem inc_counters_wrap (n : nat) (st : Device) :
  (0 <= ssn st < 32768 ->
     ssn (Nat.iter n inc_ssn st) = (ssn st + Z.of_nat n) `mod` 32768) /\
  (0 <= rsn st < 32768 ->
     rsn (Nat.iter n inc_rsn st) = (rsn st + Z.of_nat n) `mod` 32768).
Proof.
  split; intros Hr.
  - induction n as [|n IH].
    + cbn. rewrite Z.add_0_r. by rewrite Z.mod_small.
    + rewrite Nat.iter_succ, inc_ssn_mod.
      * rewrite IH, Nat2Z.inj_succ. rewrite Zplus_mod_idemp_l. f_equal. lia.
      * rewrite IH. apply Z.mod_pos_bound. lia.
  - induction n as [|n IH].
    + cbn. rewrite Z.add_0_r. by rewrite Z.mod_small.
    + rewrite Nat.iter_succ, inc_rsn_mod.
      * rewrite IH, Nat2Z.inj_succ. rewrite Zplus_mod_idemp_l. f_equal. lia.
      * rewrite IH. apply Z.mod_pos_bound. lia.
Qed.

Lemma inc_counters_wrap_witness :
  ssn (Nat.iter 5 inc_ssn (set_ssn 32766 init_device)) = (32766 + Z.of_nat 5) `mod` 32768.
Proof.
  apply (inc_counters_wrap 5 (set_ssn 32766 init_device)). cbn. lia.
Defined.

(** ** The send path *)

(** A command submitted while another one waits for its confirmation is
    only appended to [send_list]: nothing is written, and no counter and
    no timer changes. *)
Theorem send_frame_queues_behind_head (st : Device) (s r : Z) (a : Asdu) :
  asdu_Cause a = Cause.act ->
  send_list st <> [] ->
  send_frame st (Some (FrameI s r a)) true =
    set_send_list (send_list st ++ [FrameI s r a]) st.
Proof.
  intros Ha Hl. unfold send_frame, send_frame_try, or_reconnect.
  rewrite Ha, Z.eqb_refl. cbn [negb orb andb].
  by destruct (send_list st) as [|x l].
Qed.

Lemma send_frame_queues_behind_head_witness :
  send_frame polling (Some (prepare_call_frame polling 200)) true =
    set_send_list (send_list polling ++ [prepare_call_frame polling 200]) polling.
Proof.
  apply (send_frame_queues_behind_head polling (ssn polling) (rsn polling)); by vm_compute.
Defined.

(** An I-frame that passes the gate on a working connection is written
    with the current [ssn] and [rsn]; [ssn] advances with wrap, [k] grows
    by one, [w] is zeroed, T2 is cleared, and a command also starts T1
    and, with [check], joins [send_list] in its stamped form. *)
Theorem send_frame_writes_i (st : Device) (s r : Z) (a : Asdu) (check : bool) :
  healthy st = true ->
  negb check || is_nil (send_list st) || negb (asdu_Cause a =? Cause.act) = true ->
  let st' := send_frame st (Some (FrameI s r a)) check in
  emitted st st' = [FrameI (ssn st) (rsn st) a] /\
  ssn st' = (if ssn st <? 32767 then ssn st + 1 else 0) /\
  rsn st' = rsn st /\ k st' = k st + 1 /\ w st' = 0 /\ t2 st' = None /\
  send_list st' =
    (if check && (asdu_Cause a =? Cause.act)
     then send_list st ++ [FrameI (ssn st) (rsn st) a] else send_list st) /\
  (if asdu_Cause a =? Cause.act
   then exists h, t1 st' = Some h /\
          loop st' !! h = Some {| sch_delay := IECParam.T1; sch_action := ActOnTimer1;
                                  sch_cancelled := false |}
   else t1 st' = t1 st) /\
  healthy st' = true.
Proof.
  intros Hh Hgate st'. subst st'. unfold healthy in *.
  destruct (writer st) as [wr|] eqn:Hw; [|done].
  destruct (wr_broken wr) eqn:Hb; [done|].
  unfold send_frame, or_reconnect, send_frame_try, emitted. rewrite Hgate.
  rewrite stop_timer_alt. unfold write_frame. cbn. rewrite Hw, Hb. cbn.
  unfold start_timer, create_task, call_later, inc_ssn.
  destruct (asdu_Cause a =? Cause.act), check; norm; rewrite ?Hw, ?Hb, ?drop_app_length;
    repeat match goal with |- _ /\ _ => split end; try done.
  - eexists. split; [done|]. rewrite <- app_assoc. by apply list_lookup_middle.
  - eexists. split; [done|]. rewrite <- app_assoc. by apply list_lookup_middle.
Qed.

Lemma send_frame_writes_i_witness :
  healthy started = true /\
  emitted started (send_frame started (Some (FrameI 9 9 seq_asdu)) true) =
    [FrameI (ssn started) (rsn started) seq_asdu].
Proof.
  assert (Hh : healthy started = true) by reflexivity.
  split; [exact Hh|].
  pose proof (send_frame_writes_i started 9 9 seq_asdu true Hh) as H.
  cbv zeta in H. apply H. reflexivity.
Defined.

Lemma disconnect_true_pending st : is_Some (reconnect_handler (disconnect st true)).
Proof.
  unfold disconnect. norm. unfold disconnect_arm. cbn.
  destruct (reconnect_handler st) as [h|] eqn:Hr; cbn; rewrite ?Hr; by eexists.
Qed.

Lemma disconnect_user_canceled st : user_canceled (disconnect st true) = user_canceled st.
Proof.
  unfold disconnect. norm. unfold disconnect_arm. cbn.
  by destruct (reconnect_handler st) as [h|] eqn:Hr; cbn; rewrite ?Hr.
Qed.

(** [send_frame] never lets a failure escape: when the connection is
    missing or broken, an unchecked send ends in the disconnected state,
    with zeroed counters, an empty [send_list] and a reconnect pending. *)
Theorem send_frame_failure_disconnects (st : Device) (f : Frame) :
  healthy st = false ->
  let st' := send_frame st (Some f) false in
  ssn st' = 0 /\ rsn st' = 0 /\ k st' = 0 /\ w st' = 0 /\ send_list st' = [] /\
  t1 st' = None /\ t2 st' = None /\ t3 st' = None /\
  is_Some (reconnect_handler st') /\ user_canceled st' = user_canceled st.
Proof.
  intros Hh st'.
  assert (Hd : exists s, st' = disconnect s true /\ user_canceled s = user_canceled st).
  { subst st'. unfold healthy in Hh.
    unfold send_frame, or_reconnect, send_frame_try, write_frame.
    destruct f as [u|r|s r a]; cbn; rewrite ?stop_timer_alt; cbn;
      destruct (writer st) as [wr|]; cbn; try (by eexists);
      destruct (wr_broken wr); try done; cbn; by eexists. }
  destruct Hd as (s & -> & Hu).
  destruct (disconnect_fields s true) as (H1 & H2 & H3 & H4 & H5).
  pose proof (disconnect_timers s true TimerT1) as Ht1.
  pose proof (disconnect_timers s true TimerT2) as Ht2.
  pose proof (disconnect_timers s true TimerT3) as Ht3.
  cbn in Ht1, Ht2, Ht3.
  rewrite disconnect_user_canceled, Hu.
  repeat match goal with |- _ /\ _ => split end; try done.
  apply disconnect_true_pending.
Qed.

Lemma send_frame_failure_disconnects_witness :
  healthy init_device = false /\
  send_list (send_frame init_device (Some (FrameU TESTFR_ACT)) false) = [].
Proof.
  assert (Hh : healthy init_device = false) by reflexivity.
  split; [exact Hh|].
  pose proof (send_frame_failure_disconnects init_device (FrameU TESTFR_ACT) Hh) as H.
  cbv zeta in H. apply H.
Defined.

(** ** Confirmations and the queue *)

Lemma send_unchecked_healthy st f :
  healthy st = true ->
  wire (send_frame st (Some f) false) = wire st ++ [stamp st f] /\
  send_list (send_frame st (Some f) false) = send_list st /\
  healthy (send_frame st (Some f) false) = true.
Proof.
  intros Hh. unfold healthy in *.
  destruct (writer st) as [wr|] eqn:Hw; [|done].
  destruct (wr_broken wr) eqn:Hb; [done|].
  unfold send_frame, or_reconnect, send_frame_try, write_frame.
  destruct f as [u|r|s r a]; cbn; rewrite ?stop_timer_alt; cbn; rewrite Hw, Hb; cbn;
    unfold start_timer, create_task, call_later, inc_ssn;
    repeat match goal with |- context [if ?c then _ else _] => destruct c end;
    norm; by rewrite ?Hw, ?Hb.
Qed.

(** Removing the confirmed head and sending the next frame. *)
Lemma pop_and_send st h tl :
  healthy st = true ->
  send_list st = h :: tl ->
  send_list (send_head (popleft st)) =
    match tl with
    | [] => []
    | f :: rest => stamp st f :: rest
    end /\
  wire (send_head (popleft st)) =
    wire st ++ match tl with
               | [] => []
               | f :: _ => [stamp st f]
               end.
Proof.
  intros Hh Hl. unfold send_head, popleft. cbn. rewrite Hl. cbn.
  destruct tl as [|f rest]; cbn; [by rewrite app_nil_r|].
  set (s := set_send_list (f :: rest) st).
  assert (Hs : healthy s = true) by done.
  destruct (send_unchecked_healthy s f Hs) as (Hw & Hsl & _).
  rewrite Hsl. cbn. by rewrite Hw.
Qed.



(** An I-frame confirms the head of [send_list] when it has the head's
    type, or when it is a read response and the head is a read command;
    then the head is removed and the next frame is written.  Any other
    I-frame only stops T1: the queue and the wire are left alone. *)
Theorem check_to_send_i_confirmation (st : Device) (s r s0 r0 : Z) (a ha : Asdu)
    (tl : list Frame) :
  healthy st = true ->
  send_list st = FrameI s0 r0 ha :: tl ->
  let st' := check_to_send st (Some (FrameI s r a)) in
  let confirms := (asdu_TYP a =? asdu_TYP ha)
                  || ((asdu_Cause a =? Cause.req) && (asdu_TYP ha =? TYP.C_RD_NA_1)) in
  (confirms = true ->
     send_list st' = match tl with
                     | [] => []
                     | f :: rest => stamp st f :: rest
                     end /\
     emitted st st' = match tl with
                      | [] => []
                      | f :: _ => [stamp st f]
                      end) /\
  (confirms = false ->
     send_list st' = send_list st /\ emitted st st' = [] /\ t1 st' = None).
Proof.
  intros Hh Hl st' confirms. subst st' confirms.
  unfold check_to_send, check_to_send_try, or_reconnect, emitted.
  rewrite stop_timer_alt. cbn. rewrite Hl. cbn.
  set (s1 := set_t1 None _).
  assert (Hs : healthy s1 = true /\ send_list s1 = FrameI s0 r0 ha :: tl /\
               wire s1 = wire st /\ t1 s1 = None /\ forall f, stamp s1 f = stamp st f).
  { subst s1. repeat split; try done. }
  destruct Hs as (Hhs & Hls & Hws & Ht & Hst). clearbody s1.
  destruct (pop_and_send s1 _ tl Hhs Hls) as (H1 & H2).
  destruct ((asdu_TYP a =? asdu_TYP ha)
            || ((asdu_Cause a =? Cause.req) && (asdu_TYP ha =? TYP.C_RD_NA_1))); cbn.
  - split; [intros _|done]. rewrite H1, H2, Hws, drop_app_length.
    by destruct tl as [|f rest]; rewrite ?Hst.
  - split; [done|intros _]. by rewrite Hls, Hws, drop_all.
Qed.

Lemma check_to_send_i_confirmation_witness :
  healthy polling = true /\
  send_list (check_to_send polling (Some (FrameI 0 1 seq_asdu))) = send_list polling.
Proof.
  assert (Hh : healthy polling = true) by reflexivity.
  split; [exact Hh|].
  pose proof (check_to_send_i_confirmation polling 0 1 0 0 seq_asdu
                {| asdu_TYP := TYP.C_CS_NA_1; asdu_SQ := 0; asdu_SQ_COUNT := 1;
                   asdu_Cause := Cause.act; StartAddress := None; data := [empty_elem] |}
                [init_frame_i 1 0 TYP.C_IC_NA_1 Cause.act;
                 init_frame_i 1 0 TYP.C_CI_NA_1 Cause.act] Hh) as H.
  cbv zeta in H. destruct H as [_ H]; [reflexivity|]. apply H. reflexivity.
Defined.

(** ** The receive loop *)

Lemma check_seq_reject st s r a :
  s <> rsn st ->
  check_seq st (FrameI s r a) =
    (if ssn st <? r then st else set_k (ssn st - r) st, true).
Proof.
  intros Hs. unfold check_seq. cbn.
  destruct (ssn st <? r); cbn; by rewrite bool_decide_eq_false_2.
Qed.

(** An I-frame whose send number is not the expected [rsn] is never
    dispatched and nothing is written.  If no reconnect is pending the
    session is torn down and one is scheduled; if one is pending the
    frame is dropped and [rsn], [w] and [send_list] stay as they are. *)
Theorem receive_wrong_send_number (st : Device) (s r : Z) (a : Asdu) (now : Z) :
  s <> rsn st ->
  let st' := receive st (GotFrame (FrameI s r a)) now in
  processed st' = processed st /\ wire st' = wire st /\
  (reconnect_handler st = None ->
     ssn st' = 0 /\ rsn st' = 0 /\ k st' = 0 /\ w st' = 0 /\ send_list st' = [] /\
     connect_retry_count st' = connect_retry_count st + 1 /\
     is_Some (reconnect_handler st')) /\
  (is_Some (reconnect_handler st) ->
     rsn st' = rsn st /\ w st' = w st /\ send_list st' = send_list st).
Proof.
  intros Hs st'. subst st'. unfold receive. cbv zeta.
  set (st0 := create_task _ (receive_head st)).
  assert (H0 : rsn st0 = rsn st /\ w st0 = w st /\ send_list st0 = send_list st /\
               wire st0 = wire st /\ processed st0 = processed st /\
               reconnect_handler st0 = reconnect_handler st /\
               connect_retry_count st0 = connect_retry_count st).
  { subst st0. unfold receive_head, start_timer, create_task, call_later. by norm. }
  destruct H0 as (Hr0 & Hw0 & Hl0 & Hwi0 & Hp0 & Hrh0 & Hc0). clearbody st0.
  rewrite check_seq_reject by (by rewrite Hr0).
  set (s1 := if ssn st0 <? r then _ else _).
  assert (H1 : rsn s1 = rsn st /\ w s1 = w st /\ send_list s1 = send_list st /\
               wire s1 = wire st /\ processed s1 = processed st /\
               reconnect_handler s1 = reconnect_handler st /\
               connect_retry_count s1 = connect_retry_count st).
  { subst s1. by destruct (ssn st0 <? r). }
  destruct H1 as (Hr1 & Hw1 & Hl1 & Hwi1 & Hp1 & Hrh1 & Hc1). clearbody s1.
  rewrite Hrh1.
  destruct (reconnect_handler st) as [h|] eqn:Hrh.
  - repeat match goal with |- _ /\ _ => split end; try done.
  - destruct (disconnect_fields s1 true) as (H1 & H2 & H3 & H4 & H5).
    destruct (disconnect_armed s1 Hrh1) as (Hcrc & Hrh2 & _).
    rewrite disconnect_wire.
    repeat match goal with |- _ /\ _ => split end; try done; try (by intros [? [=]]).
    + unfold disconnect. norm. unfold disconnect_arm. cbn. by rewrite Hrh1.
    + intros _. rewrite Hcrc, Hc1, Hrh2. repeat split; try done.
Qed.

Lemma receive_wrong_send_number_witness :
  5 <> rsn started /\
  processed (receive started (GotFrame (FrameI 5 0 seq_asdu)) 0) = processed started.
Proof.
  assert (Hs : 5 <> rsn started) by (by vm_compute).
  split; [exact Hs|].
  pose proof (receive_wrong_send_number started 5 0 seq_asdu 0 Hs) as H.
  cbv zeta in H. apply H.
Defined.

(** The end of the stream: a session closed by its owner, or one with a
    reconnect pending, is left as it is; otherwise the session is torn
    down and a reconnect is scheduled. *)
Theorem receive_incomplete_read (st : Device) (now : Z) :
  let st' := receive st IncompleteRead now in
  (user_canceled st = true \/ is_Some (reconnect_handler st) -> st' = st) /\
  (user_canceled st = false -> reconnect_handler st = None ->
     st' = disconnect st true /\
     connect_retry_count st' = connect_retry_count st + 1 /\
     send_list st' = [] /\ is_Some (reconnect_handler st')).
Proof.
  intros st'. subst st'. unfold receive. split.
  - intros [Hu|[h Hh]].
    + by rewrite Hu.
    + rewrite Hh. by destruct (user_canceled st).
  - intros Hu Hr. rewrite Hu, Hr.
    destruct (disconnect_armed st Hr) as (Hc & Hrh & _).
    destruct (disconnect_fields st true) as (_ & _ & _ & _ & Hl).
    rewrite Hc, Hrh, Hl. repeat split. by eexists.
Qed.

Lemma receive_incomplete_read_witness :
  user_canceled started = false /\ reconnect_handler started = None /\
  connect_retry_count (receive started IncompleteRead 0) = connect_retry_count started + 1.
Proof.
  split; [reflexivity|]. split; [reflexivity|].
  pose proof (receive_incomplete_read started 0) as H.
  cbv zeta in H. destruct H as [_ H]. by apply H.
Defined.

(** Lines 116-117: every frame read restarts T3 and spawns the next run
    of the receive task; the T3 handle held before can no longer fire. *)
Theorem receive_head_restarts_t3 (st : Device) :
  in_loop st (t3 st) ->
  let st' := receive_head st in
  handle_live st' (t3 st) = false /\
  (exists h, t3 st' = Some h /\
     loop st' !! h = Some {| sch_delay := IECParam.T3; sch_action := ActOnTimer3;
                             sch_cancelled := false |}) /\
  (exists h, receive_handler st' = Some h /\
     loop st' !! h = Some {| sch_delay := 0; sch_action := ActReceive;
                             sch_cancelled := false |}).
Proof.
  intros Hin st'. subst st'. unfold receive_head, start_timer, call_later. norm.
  repeat match goal with |- _ /\ _ => split end.
  - apply handle_live_false. intros h Hh. cbn. rewrite Hh. cbn.
    specialize (Hin h Hh).
    do 2 (apply dead_snoc; [rewrite ?length_app, length_alter; lia|]).
    apply dead_alter_same.
  - eexists. split; [done|]. rewrite <- app_assoc. by apply list_lookup_middle.
  - eexists. split; [done|]. by apply list_lookup_middle.
Qed.

Lemma receive_head_restarts_t3_witness :
  in_loop started (t3 started) /\ handle_live (receive_head started) (t3 started) = false.
Proof.
  assert (Hin : in_loop started (t3 started)) by (intros ? [=]; subst; vm_compute; lia).
  split; [exact Hin|].
  pose proof (receive_head_restarts_t3 started Hin) as H. cbv zeta in H. apply H.
Defined.

(** ** Connection attempts *)

(** A connection attempt that times out or fails clears
    [user_canceled], counts one more retry and arms the one-shot timer
    for the next attempt three seconds later. *)
Theorem reconnect_failure_reschedules (st : Device) (res : ConnectResult) :
  handles_ok st ->
  res = ConnTimeout \/ res = ConnFailed ->
  let st' := reconnect st res in
  user_canceled st' = false /\
  connect_retry_count st' = connect_retry_count st + 1 /\
  send_list st' = [] /\
  exists h, reconnect_handler st' = Some h /\
    loop st' !! h = Some {| sch_delay := 3; sch_action := ActReconnect;
                            sch_cancelled := false |}.
Proof.
  intros (H1 & H2 & H3 & _) Hres st'.
  set (s := set_user_canceled false (set_reconnect_handler None st)).
  assert (Hst' : st' = disconnect s true) by (subst st'; by destruct Hres as [-> | ->]).
  rewrite Hst'.
  assert (Hr : reconnect_handler s = None) by done.
  destruct (disconnect_armed s Hr) as (Hc & Hrh & Hu).
  destruct (disconnect_fields s true) as (_ & _ & _ & _ & Hl).
  rewrite Hc, Hu, Hl, Hrh. repeat match goal with |- _ /\ _ => split end; try done.
  exists (length (loop s)). split; [done|]. by apply disconnect_arms_timer.
Qed.

Lemma reconnect_failure_reschedules_witness :
  handles_ok init_device /\
  connect_retry_count (reconnect init_device ConnTimeout) = connect_retry_count init_device + 1.
Proof.
  assert (Hok : handles_ok init_device) by handles_ok_eval.
  split; [exact Hok|].
  pose proof (reconnect_failure_reschedules init_device ConnTimeout Hok) as H.
  cbv zeta in H. apply H. by left.
Defined.

(** The expiry of T1 does not tear the session down: it only schedules
    an immediate reconnect, unless one is pending.  The counters and
    [send_list] are kept, so when that reconnect succeeds while a frame
    still waits for its confirmation, the STARTDT_ACT of the new
    connection is queued behind it and is not written. *)
Theorem t1_expiry_keeps_session (st : Device) (broken : bool) :
  let st1 := on_timer1 st in
  let st2 := reconnect st1 (ConnOk broken) in
  ssn st1 = ssn st /\ rsn st1 = rsn st /\ k st1 = k st /\ w st1 = w st /\
  send_list st1 = send_list st /\ writer st1 = writer st /\
  connect_retry_count st1 = connect_retry_count st /\
  (reconnect_handler st = None ->
     exists h, reconnect_handler st1 = Some h /\
       loop st1 !! h = Some {| sch_delay := 0; sch_action := ActReconnect;
                               sch_cancelled := false |}) /\
  (is_Some (reconnect_handler st) -> st1 = st) /\
  (send_list st <> [] ->
     wire st2 = wire st /\ send_list st2 = send_list st ++ [FrameU STARTDT_ACT] /\
     ssn st2 = ssn st /\ rsn st2 = rsn st /\ k st2 = k st /\ w st2 = w st).
Proof.
  intros st1 st2.
  assert (H1 : ssn st1 = ssn st /\ rsn st1 = rsn st /\ k st1 = k st /\ w st1 = w st /\
               send_list st1 = send_list st /\ writer st1 = writer st /\
               wire st1 = wire st /\
               connect_retry_count st1 = connect_retry_count st).
  { subst st1. unfold on_timer1, call_soon, call_later.
    by destruct (reconnect_handler st). }
  destruct H1 as (Hs & Hr & Hk & Hw & Hl & Hwr & Hwi & Hc).
  repeat match goal with |- _ /\ _ => split end; try done.
  - intros Hn. subst st1. unfold on_timer1, call_soon, call_later. rewrite Hn. cbn.
    eexists. split; [done|]. by apply list_lookup_middle.
  - intros [h Hh]. subst st1. unfold on_timer1. by rewrite Hh.
  - intros Hne. subst st2. clearbody st1. unfold reconnect, call_later. cbv zeta.
    unfold send_frame, send_frame_try, or_reconnect, init_frame_u. cbn.
    rewrite Hl. destruct (send_list st) as [|x l]; [done|]. cbn.
    by repeat match goal with |- _ /\ _ => split end.
Qed.

Lemma t1_expiry_keeps_session_witness :
  send_list polling <> [] /\
  wire (reconnect (on_timer1 polling) (ConnOk false)) = wire polling.
Proof.
  assert (Hne : send_list polling <> []) by (by vm_compute).
  split; [exact Hne|].
  pose proof (t1_expiry_keeps_session polling false) as H. cbv zeta in H.
  destruct H as (_ & _ & _ & _ & _ & _ & _ & _ & _ & H). by apply H.
Defined.

(** ** The scheduler's timer *)

Ltac loop_length :=
  cbn; rewrite ?cancel_opt_length, ?length_app, ?length_alter, ?cancel_opt_length;
  cbn; rewrite ?cancel_opt_length, ?length_app, ?length_alter; cbn; lia.

Lemma same_schedule_refl st : same_schedule st st.
Proof. by repeat split. Qed.

Lemma same_schedule_trans s1 s2 s3 :
  same_schedule s1 s2 -> same_schedule s2 s3 -> same_schedule s1 s3.
Proof.
  intros (A2 & A3 & A4 & A5) (B2 & B3 & B4 & B5).
  unfold same_schedule. rewrite B2, B3, B4. repeat split; try done. lia.
Qed.

Lemma same_schedule_disconnect st r : same_schedule st (disconnect st r).
Proof.
  unfold same_schedule, disconnect. norm. unfold disconnect_arm.
  destruct r, (reconnect_handler st) as [h|] eqn:Hr; cbn; rewrite ?Hr;
    repeat match goal with |- _ /\ _ => split end; try done; loop_length.
Qed.

Lemma same_schedule_send_frame_try st f c :
  same_schedule st (outcome_state (send_frame_try st f c)).
Proof.
  unfold same_schedule, send_frame_try, write_frame.
  destruct f as [u|r|s r a]; cbn; rewrite ?stop_timer_alt; cbn;
    repeat match goal with
           | |- context [match writer st with _ => _ end] => destruct (writer st) as [wr|]; cbn
           | |- context [if ?c then _ else _] => destruct c; cbn
           end;
    unfold start_timer, create_task, call_later, inc_ssn; norm;
    repeat match goal with |- _ /\ _ => split end; try done; loop_length.
Qed.

Lemma same_schedule_send_frame st f c : same_schedule st (send_frame st f c).
Proof.
  destruct f as [f|]; unfold send_frame; [|apply same_schedule_refl].
  pose proof (same_schedule_send_frame_try st f c) as H.
  destruct (send_frame_try st f c) as [s|s]; cbn in *; [done|].
  eapply same_schedule_trans; [exact H|apply same_schedule_disconnect].
Qed.

Lemma timedelta_seconds_range d : 0 <= timedelta_seconds d < 86400.
Proof. unfold timedelta_seconds. apply Z.mod_pos_bound. lia. Qed.

(** Whatever it sends, [run_task] fixes [last_call_all_time_end] (the
    current time on the first run), makes the handle it held unable to
    fire and arms exactly one new timer for itself, after the whole
    seconds of [last_call_all_time_end + coll_interval - now] taken
    modulo one day; when the interrogation is not yet due, nothing is
    written or queued. *)
Theorem run_task_rearms (st : Device) (now : Z) :
  in_loop st (task_handler st) ->
  let last_end := default now (last_call_all_time_end st) in
  let delay := timedelta_seconds (last_end + coll_interval st - now) in
  let st' := run_task st now in
  last_call_all_time_end st' = Some last_end /\
  handle_live st' (task_handler st) = false /\
  0 <= delay < 86400 /\
  (exists h, task_handler st' = Some h /\
     loop st' !! h = Some {| sch_delay := delay; sch_action := ActRunTask;
                             sch_cancelled := false |}) /\
  (now < last_end + coll_interval st ->
     wire st' = wire st /\ send_list st' = send_list st /\
     last_call_all_time_begin st' = last_call_all_time_begin st).
Proof.
  intros Hin e delay st'. subst delay st'. unfold run_task. fold e.
  set (s0 := set_last_call_all_time_end (Some e) st).
  change (coll_interval s0) with (coll_interval st).
  set (s1 := if e + coll_interval st <=? now then _ else s0).
  assert (H1 : same_schedule s0 s1).
  { subst s1. case_match; [|apply same_schedule_refl].
    eapply same_schedule_trans; [|apply same_schedule_send_frame].
    eapply same_schedule_trans; [|apply same_schedule_send_frame].
    eapply same_schedule_trans; [|apply same_schedule_send_frame].
    by repeat split. }
  assert (H1' : now < e + coll_interval st ->
                wire s1 = wire st /\ send_list s1 = send_list st /\
                last_call_all_time_begin s1 = last_call_all_time_begin st).
  { intros Hlt. subst s1. by destruct (Z.leb_spec (e + coll_interval st) now); [lia|]. }
  destruct H1 as (He1 & Hc1 & Ht1 & Hn1). clearbody s1.
  change (last_call_all_time_end s0) with (Some e) in He1.
  change (coll_interval s0) with (coll_interval st) in Hc1.
  change (task_handler s0) with (task_handler st) in Ht1.
  change (loop s0) with (loop st) in Hn1.
  set (s2 := match task_handler s1 with Some h => cancel h s1 | None => s1 end).
  assert (H2 : last_call_all_time_end s2 = Some e /\ coll_interval s2 = coll_interval st /\
               loop s2 = cancel_opt (task_handler st) (loop s1) /\
               wire s2 = wire s1 /\ send_list s2 = send_list s1 /\
               last_call_all_time_begin s2 = last_call_all_time_begin s1).
  { subst s2. rewrite <- Ht1. by destruct (task_handler s1). }
  destruct H2 as (He2 & Hc2 & Hl2 & Hw2 & Hs2 & Hb2). clearbody s2.
  unfold call_later. cbn. rewrite He2, Hc2. cbn.
  repeat match goal with |- _ /\ _ => split end; try done.
  - apply handle_live_false. intros h Hth. cbn. rewrite Hl2, Hth. cbn.
    apply dead_snoc; [|apply dead_alter_same].
    rewrite length_alter. specialize (Hin h Hth). lia.
  - apply timedelta_seconds_range.
  - apply timedelta_seconds_range.
  - exists (length (loop s2)). split; [done|]. by apply list_lookup_middle.
  - intros Hlt. destruct (H1' Hlt) as (A & B & C). by rewrite Hw2, Hs2, Hb2, A, B, C.
Qed.

Lemma run_task_rearms_witness :
  in_loop started (task_handler started) /\
  last_call_all_time_end (run_task started 5) = Some (default 5 (last_call_all_time_end started)).
Proof.
  assert (Hin : in_loop started (task_handler started))
    by (intros ? [=]; subst; vm_compute; lia).
  split; [exact Hin|].
  pose proof (run_task_rearms started 5 Hin) as H. cbv zeta in H. apply H.
Defined.

Lemma run_task_arms st now :
  exists h, task_handler (run_task st now) = Some h /\
    loop (run_task st now) !! h =
      Some {| sch_delay :=
                timedelta_seconds
                  (default now (last_call_all_time_end st) + coll_interval st - now);
              sch_action := ActRunTask; sch_cancelled := false |}.
Proof.
  unfold run_task.
  set (e := default now (last_call_all_time_end st)).
  set (s0 := set_last_call_all_time_end (Some e) st).
  change (coll_interval s0) with (coll_interval st).
  set (s1 := if e + coll_interval st <=? now then _ else s0).
  assert (H1 : same_schedule s0 s1).
  { subst s1. case_match; [|apply same_schedule_refl].
    eapply same_schedule_trans; [|apply same_schedule_send_frame].
    eapply same_schedule_trans; [|apply same_schedule_send_frame].
    eapply same_schedule_trans; [|apply same_schedule_send_frame].
    by repeat split. }
  destruct H1 as (He1 & Hc1 & _). clearbody s1.
  change (last_call_all_time_end s0) with (Some e) in He1.
  change (coll_interval s0) with (coll_interval st) in Hc1.
  set (s2 := match task_handler s1 with Some h => cancel h s1 | None => s1 end).
  assert (H2 : last_call_all_time_end s2 = Some e /\ coll_interval s2 = coll_interval st).
  { subst s2. by destruct (task_handler s1). }
  destruct H2 as (He2 & Hc2). clearbody s2.
  unfold call_later. cbn. rewrite He2, Hc2. cbn.
  exists (length (loop s2)). split; [done|]. by apply list_lookup_middle.
Qed.

(** The delay of the next run is the [seconds] field of a time
    difference, which is never negative.  The first run waits the
    interval; a run exactly on time is followed at once; a run up to one
    second late is followed 86399 seconds later, almost a day. *)
Theorem run_task_delay_cases (st : Device) (now e : Z) :
  let armed d :=
    exists h, task_handler (run_task st now) = Some h /\
      loop (run_task st now) !! h =
        Some {| sch_delay := d; sch_action := ActRunTask; sch_cancelled := false |} in
  (last_call_all_time_end st = None ->
     armed ((coll_interval st `div` 1000000) `mod` 86400)) /\
  (last_call_all_time_end st = Some e -> e + coll_interval st = now -> armed 0) /\
  (last_call_all_time_end st = Some e ->
     e + coll_interval st < now <= e + coll_interval st + 1000000 -> armed 86399).
Proof.
  intros armed. subst armed. cbv beta.
  destruct (run_task_arms st now) as (h & Hh & Hl).
  repeat match goal with |- _ /\ _ => split end.
  - intros He. rewrite He in Hl. cbn in Hl. exists h. split; [done|].
    rewrite Hl. unfold timedelta_seconds. do 4 f_equal. lia.
  - intros He Hn. rewrite He in Hl. cbn in Hl. exists h. split; [done|].
    rewrite Hl. replace (e + coll_interval st - now) with 0 by lia. done.
  - intros He Hn. rewrite He in Hl. cbn in Hl. exists h. split; [done|].
    rewrite Hl. unfold timedelta_seconds.
    replace ((e + coll_interval st - now) `div` 1000000) with (-1); [done|].
    apply Z.div_unique with (r := e + coll_interval st - now + 1000000); lia.
Qed.

Lemma run_task_delay_cases_witness :
  last_call_all_time_end started = Some 0 /\
  0 + coll_interval started < 900000001 <= 0 + coll_interval started + 1000000 /\
  exists h, task_handler (run_task started 900000001) = Some h /\
    loop (run_task started 900000001) !! h =
      Some {| sch_delay := 86399; sch_action := ActRunTask; sch_cancelled := false |}.
Proof.
  assert (He : last_call_all_time_end started = Some 0) by reflexivity.
  assert (Hn : 0 + coll_interval started < 900000001 <= 0 + coll_interval started + 1000000)
    by (by vm_compute).
  split; [exact He|]. split; [exact Hn|].
  pose proof (run_task_delay_cases started 900000001 0) as H. cbv zeta beta in H.
  destruct H as (_ & _ & H). exact (H He Hn).
Defined.

(** ** Handles always name entries of the loop *)





















(** ** The dispatcher's addresses *)

(** With SQ=0 the loop publishes, in the order of the frame, one triple
    per element whose IV bit is clear, with that element's own address
    and time; it raises exactly when such an element has no address. *)
Theorem collect_pairs_addressed (a : Asdu) (now idx : Z) (ds : list DataElem) :
  asdu_SQ a = 0 ->
  collect_pairs a now idx ds =
    mapM (fun d => (fun addr => (data_time now d, addr, Value d)) <$> Address d)
      (valid_elems ds).
Proof.
  intros Hsq. revert idx. induction ds as [|d ds IH]; intros idx; [done|].
  cbn. destruct (iv_invalid d); cbn; [apply IH|].
  rewrite Hsq. cbn. destruct (Address d) as [addr|]; cbn; [|done].
  by rewrite IH.
Qed.

Lemma collect_pairs_addressed_witness :
  collect_pairs {| asdu_TYP := 1; asdu_SQ := 0; asdu_SQ_COUNT := 3; asdu_Cause := 3;
                   StartAddress := None; data := [point 7 1; seq_point 5 1; point 9 0] |}
    4 0 [point 7 1; seq_point 5 1; point 9 0] = Some [(4, 7, 1); (4, 9, 0)].
Proof.
  rewrite collect_pairs_addressed; reflexivity.
Defined.

(** With SQ=1 and every IV bit clear, the element at position [i]
    is published with the address [StartAddress + i]. *)
Theorem collect_pairs_sequence (a : Asdu) (now start : Z) (ds : list DataElem) :
  asdu_SQ a <> 0 ->
  StartAddress a = Some start ->
  Forall (fun d => iv_invalid d = false) ds ->
  collect_pairs a now 0 ds =
    Some (imap (fun i d => (data_time now d, start + Z.of_nat i, Value d)) ds).
Proof.
  intros Hsq Hst Hv.
  assert (Hg : forall idx,
             collect_pairs a now idx ds =
               Some (imap (fun i d => (data_time now d, start + idx + Z.of_nat i, Value d)) ds)).
  { induction Hv as [|d ds Hd Hv IH]; intros idx; [done|].
    cbn. rewrite Hd. apply Z.eqb_neq in Hsq. rewrite Hsq, Hst. cbn.
    rewrite IH. do 2 f_equal.
    - do 2 f_equal. lia.
    - apply imap_ext. intros i x _. cbn. do 2 f_equal. lia. }
  rewrite Hg. f_equal. apply imap_ext. intros i x _. do 2 f_equal. lia.
Qed.

Lemma collect_pairs_sequence_witness :
  collect_pairs {| asdu_TYP := 1; asdu_SQ := 1; asdu_SQ_COUNT := 2; asdu_Cause := 3;
                   StartAddress := Some 100; data := [seq_point 20 0; seq_point 30 0] |}
    4 0 [seq_point 20 0; seq_point 30 0] = Some [(4, 100, 20); (4, 101, 30)].
Proof.
  rewrite (collect_pairs_sequence _ 4 100); [reflexivity|done|reflexivity|].
  repeat constructor.
Defined.

(** * Properties of the REST facade *)

Lemma exists_key_false db key :
  APIServer.exists_key db key = false ->
  APIServer.hashes db !! key = None /\ APIServer.sets db !! key = None.
Proof.
  unfold APIServer.exists_key. intros H.
  apply orb_false_iff in H as [H1 H2].
  apply bool_decide_eq_false in H1. apply bool_decide_eq_false in H2.
  split.
  - destruct (APIServer.hashes db !! key) eqn:E; [|done]. destruct H1. by eexists.
  - destruct (APIServer.sets db !! key) eqn:E; [|done]. destruct H2. by eexists.
Qed.

Lemma has_id_nonempty (d : gmap string string) (key v : string) : d !! key = Some v -> d <> ∅.
Proof. intros H ->. by rewrite lookup_empty in H. Qed.

(** A device posted under a fresh id is answered with 200, announced on
    CHANNEL:DEVICE_ADD with the request body, listed by
    [get_device_list], and read back unchanged by [get_device]. *)
Theorem create_device_round_trip (db : APIServer.Redis) (request : APIServer.Request)
    (device_dict : gmap string string) (id : string) :
  APIServer.req_json request = Some device_dict ->
  device_dict !! "id"%string = Some id ->
  APIServer.exists_key db ("HS:DEVICE:" +:+ id) = false ->
  let db' := (APIServer.create_device db request).1 in
  APIServer.status (APIServer.create_device db request).2 = 200 /\
  APIServer.get_device db' id = APIServer.JsonDict device_dict /\
  APIServer.get_device_list db' =
    APIServer.JsonSet ({[id]} ∪ APIServer.smembers db "SET:DEVICE") /\
  APIServer.channels db' =
    APIServer.channels db ++ [("CHANNEL:DEVICE_ADD"%string, APIServer.req_body request)].
Proof.
  intros Hj Hid Hex db'. subst db'.
  destruct (exists_key_false _ _ Hex) as [Hh _].
  unfold APIServer.create_device. rewrite Hj, Hid, Hex. cbn.
  repeat match goal with |- _ /\ _ => split end; try done.
  - unfold APIServer.get_device, APIServer.hgetall. cbn.
    rewrite lookup_insert_eq. cbn. cbn in Hh. rewrite Hh. cbn.
    rewrite (right_id_L ∅ (∪)).
    rewrite bool_decide_eq_false_2; [done|]. by eapply has_id_nonempty.
  - unfold APIServer.get_device_list, APIServer.smembers. cbn.
    by rewrite lookup_insert_eq.
Qed.

Lemma create_device_round_trip_witness :
  APIServer.get_device (APIServer.create_device empty_db new_term).1 "1" =
    APIServer.JsonDict (<["id" := "1"]> (<["device_id" := "7"]> ∅)).
Proof.
  pose proof (create_device_round_trip empty_db new_term
                (<["id" := "1"]> (<["device_id" := "7"]> ∅)) "1") as H.
  cbv zeta in H. apply H; reflexivity.
Defined.

Lemma exists_after_hmset db key d :
  APIServer.exists_key (APIServer.hmset key d db) key = true.
Proof.
  unfold APIServer.exists_key, APIServer.hmset. cbn.
  rewrite lookup_insert_eq. by rewrite bool_decide_eq_true_2.
Qed.

Lemma exists_sadd db key member key' :
  APIServer.exists_key db key' = true ->
  APIServer.exists_key (APIServer.sadd key member db) key' = true.
Proof.
  unfold APIServer.exists_key, APIServer.sadd. cbn.
  intros [H|H]%orb_true_iff; [by rewrite H|].
  apply orb_true_iff. right. apply bool_decide_eq_true.
  apply bool_decide_eq_true in H.
  destruct (decide (key = key')) as [->|Hne];
    [rewrite lookup_insert_eq; by eexists | by rewrite lookup_insert_ne].
Qed.

(** Posting a device again under an id that was just created is refused
    with 409 and leaves the store as the first creation left it: nothing
    is overwritten and nothing is published a second time. *)
Theorem create_device_twice (db : APIServer.Redis) (request again : APIServer.Request)
    (d d' : gmap string string) (id : string) :
  APIServer.req_json request = Some d -> d !! "id"%string = Some id ->
  APIServer.req_json again = Some d' -> d' !! "id"%string = Some id ->
  APIServer.exists_key db ("HS:DEVICE:" +:+ id) = false ->
  let db1 := (APIServer.create_device db request).1 in
  APIServer.create_device db1 again =
    (db1, {| APIServer.status := 409; APIServer.text := "device already exists!" |}).
Proof.
  intros Hj Hid Hj' Hid' Hex db1.
  assert (Hex1 : APIServer.exists_key db1 ("HS:DEVICE:" +:+ id) = true).
  { subst db1. unfold APIServer.create_device. rewrite Hj, Hid, Hex. cbn [fst].
    change (APIServer.exists_key (APIServer.publish ?c ?m ?x) ?k)
      with (APIServer.exists_key x k).
    apply exists_sadd, exists_after_hmset. }
  clearbody db1. unfold APIServer.create_device. by rewrite Hj', Hid', Hex1.
Qed.

Lemma create_device_twice_witness :
  APIServer.create_device (APIServer.create_device empty_db new_term).1 new_term =
    ((APIServer.create_device empty_db new_term).1,
     {| APIServer.status := 409; APIServer.text := "device already exists!" |}).
Proof.
  pose proof (create_device_twice empty_db new_term new_term
                (<["id" := "1"]> (<["device_id" := "7"]> ∅))
                (<["id" := "1"]> (<["device_id" := "7"]> ∅)) "1") as H.
  cbv zeta in H. apply H; reflexivity.
Defined.

(** A term posted under a fresh id is stored whatever its [device_id]
    (the device is not looked up): [get_term] reads it back, and its id
    joins both SET:TERM and the term set of that device. *)
Theorem create_term_round_trip (db : APIServer.Redis) (request : APIServer.Request)
    (term_dict : gmap string string) (id device_id : string) :
  APIServer.req_json request = Some term_dict ->
  term_dict !! "id"%string = Some id ->
  term_dict !! "device_id"%string = Some device_id ->
  APIServer.exists_key db ("HS:TERM:" +:+ id) = false ->
  let db' := (APIServer.create_term db request).1 in
  APIServer.status (APIServer.create_term db request).2 = 200 /\
  APIServer.get_term db' id = APIServer.JsonDict term_dict /\
  APIServer.get_term_list db' = APIServer.JsonSet ({[id]} ∪ APIServer.smembers db "SET:TERM") /\
  APIServer.get_device_term_list db' device_id =
    APIServer.JsonSet ({[id]} ∪ APIServer.smembers db ("SET:DEVICE_TERM:" +:+ device_id)).
Proof.
  intros Hj Hid Hdev Hex db'. subst db'.
  destruct (exists_key_false _ _ Hex) as [Hh _].
  unfold APIServer.create_term. rewrite Hj, Hid, Hex, Hdev. cbn.
  repeat match goal with |- _ /\ _ => split end; try done.
  - unfold APIServer.get_term, APIServer.hgetall. cbn.
    rewrite lookup_insert_eq. cbn. cbn in Hh. rewrite Hh. cbn.
    rewrite (right_id_L ∅ (∪)).
    rewrite bool_decide_eq_false_2; [done|]. by eapply has_id_nonempty.
  - unfold APIServer.get_term_list, APIServer.smembers. cbn.
    rewrite lookup_insert_ne by done. by rewrite lookup_insert_eq.
  - unfold APIServer.get_device_term_list, APIServer.exists_key, APIServer.smembers. cbn.
    rewrite lookup_insert_eq. cbn.
    rewrite orb_true_r. by rewrite lookup_insert_ne by done.
Qed.

Lemma create_term_round_trip_witness :
  APIServer.get_term (APIServer.create_term empty_db new_term).1 "1" =
    APIServer.JsonDict (<["id" := "1"]> (<["device_id" := "7"]> ∅)).
Proof.
  pose proof (create_term_round_trip empty_db new_term
                (<["id" := "1"]> (<["device_id" := "7"]> ∅)) "1" "7") as H.
  cbv zeta in H. apply H; reflexivity.
Defined.

(** A term posted without [device_id] is answered with 400 and nothing
    is published, but the failure comes after the first writes: the term
    is already stored and listed, so the corrected request for the same
    id is refused with 409. *)
Theorem create_term_partial_write (db : APIServer.Redis) (request again : APIServer.Request)
    (d d' : gmap string string) (id : string) :
  APIServer.req_json request = Some d -> d !! "id"%string = Some id ->
  d !! "device_id"%string = None ->
  APIServer.req_json again = Some d' -> d' !! "id"%string = Some id ->
  APIServer.exists_key db ("HS:TERM:" +:+ id) = false ->
  let db' := (APIServer.create_term db request).1 in
  APIServer.status (APIServer.create_term db request).2 = 400 /\
  APIServer.channels db' = APIServer.channels db /\
  APIServer.get_term db' id = APIServer.JsonDict d /\
  APIServer.get_term_list db' = APIServer.JsonSet ({[id]} ∪ APIServer.smembers db "SET:TERM") /\
  APIServer.status (APIServer.create_term db' again).2 = 409.
Proof.
  intros Hj Hid Hdev Hj' Hid' Hex db'.
  destruct (exists_key_false _ _ Hex) as [Hh _].
  assert (Hdb' : db' = APIServer.sadd "SET:TERM" id (APIServer.hmset ("HS:TERM:" +:+ id) d db)).
  { subst db'. unfold APIServer.create_term. by rewrite Hj, Hid, Hex, Hdev. }
  assert (Hex1 : APIServer.exists_key db' ("HS:TERM:" +:+ id) = true).
  { rewrite Hdb'. apply exists_sadd, exists_after_hmset. }
  repeat match goal with |- _ /\ _ => split end.
  - unfold APIServer.create_term. by rewrite Hj, Hid, Hex, Hdev.
  - by rewrite Hdb'.
  - rewrite Hdb'. unfold APIServer.get_term, APIServer.hgetall. cbn.
    rewrite lookup_insert_eq. cbn. cbn in Hh. rewrite Hh. cbn.
    rewrite (right_id_L ∅ (∪)).
    rewrite bool_decide_eq_false_2; [done|]. by eapply has_id_nonempty.
  - rewrite Hdb'. unfold APIServer.get_term_list, APIServer.smembers. cbn.
    by rewrite lookup_insert_eq.
  - clearbody db'. unfold APIServer.create_term. by rewrite Hj', Hid', Hex1.
Qed.

Lemma create_term_partial_write_witness :
  APIServer.status (APIServer.create_term empty_db term_without_device).2 = 400 /\
  APIServer.status
    (APIServer.create_term (APIServer.create_term empty_db term_without_device).1 new_term).2
    = 409.
Proof.
  pose proof (create_term_partial_write empty_db term_without_device new_term
                (<["id" := "1"]> ∅) (<["id" := "1"]> (<["device_id" := "7"]> ∅)) "1") as H.
  cbv zeta in H.
  destruct H as (H1 & _ & _ & _ & H2); try reflexivity. split; [exact H1|exact H2].
Defined.

(** Creating an item stores it for [get_item] and never touches what
    the device and term handlers read, nor the bus: whatever the request
    and its outcome, devices, terms and the published messages are as
    before. *)
Theorem create_item_isolated (db : APIServer.Redis) (request : APIServer.Request) :
  let db' := (APIServer.create_item db request).1 in
  (forall id, APIServer.get_device db' id = APIServer.get_device db id) /\
  (forall id, APIServer.get_term db' id = APIServer.get_term db id) /\
  APIServer.get_device_list db' = APIServer.get_device_list db /\
  APIServer.get_term_list db' = APIServer.get_term_list db /\
  APIServer.channels db' = APIServer.channels db /\
  (forall d id,
     APIServer.req_json request = Some d -> d !! "id"%string = Some id ->
     APIServer.exists_key db ("HS:ITEM:" +:+ id) = false ->
     APIServer.get_item db' id = APIServer.JsonDict d /\
     APIServer.get_item_list db' =
       APIServer.JsonSet ({[id]} ∪ APIServer.smembers db "SET:ITEM")).
Proof.
  intros db'. subst db'.
  assert (Hcases :
            (APIServer.create_item db request).1 = db \/
            exists d id, (APIServer.create_item db request).1 =
                           APIServer.sadd "SET:ITEM" id
                             (APIServer.hmset ("HS:ITEM:" +:+ id) d db)).
  { unfold APIServer.create_item, APIServer.bad_request.
    destruct (APIServer.req_json request) as [d|]; [|by left].
    destruct (d !! "id"%string) as [id|]; [|by left].
    destruct (APIServer.exists_key db ("HS:ITEM:" +:+ id)); [by left|].
    right. by exists d, id. }
  repeat match goal with |- _ /\ _ => split end.
  - intros id'. destruct Hcases as [->|(d & id & ->)]; [done|].
    unfold APIServer.get_device, APIServer.hgetall. cbn.
    by rewrite lookup_insert_ne by done.
  - intros id'. destruct Hcases as [->|(d & id & ->)]; [done|].
    unfold APIServer.get_term, APIServer.hgetall. cbn.
    by rewrite lookup_insert_ne by done.
  - destruct Hcases as [->|(d & id & ->)]; [done|].
    unfold APIServer.get_device_list, APIServer.smembers. cbn.
    by rewrite lookup_insert_ne by done.
  - destruct Hcases as [->|(d & id & ->)]; [done|].
    unfold APIServer.get_term_list, APIServer.smembers. cbn.
    by rewrite lookup_insert_ne by done.
  - by destruct Hcases as [->|(d & id & ->)].
  - clear Hcases. intros d id Hj Hid Hex.
    destruct (exists_key_false _ _ Hex) as [Hh _].
    unfold APIServer.create_item. rewrite Hj, Hid, Hex. cbn [fst]. split.
    + unfold APIServer.get_item, APIServer.hgetall. cbn.
      rewrite lookup_insert_eq. cbn. cbn in Hh. rewrite Hh. cbn.
      rewrite (right_id_L ∅ (∪)).
      rewrite bool_decide_eq_false_2; [done|]. by eapply has_id_nonempty.
    + unfold APIServer.get_item_list, APIServer.smembers. cbn.
      by rewrite lookup_insert_eq.
Qed.

Lemma create_item_isolated_witness :
  APIServer.get_item (APIServer.create_item empty_db new_item).1 "3" =
    APIServer.JsonDict (<["id" := "3"]> ∅).
Proof.
  pose proof (create_item_isolated empty_db new_item) as H. cbv zeta in H.
  destruct H as (_ & _ & _ & _ & _ & H).
  apply (H (<["id" := "3"]> ∅) "3"); reflexivity.
Defined.

(** [device_call] puts the request on CHANNEL:DEVICE_CALL only after the
    device, the term, the item and their binding were all found, and
    then exactly once; it relays the answer that arrives in time, and
    when none does it answers 400 although the request is already on
    the bus. *)
Theorem device_call_publishes_once (db : APIServer.Redis) (request : APIServer.Request)
    (d : gmap string string) (device_id term_id item_id : string) (answer : option string) :
  APIServer.req_json request = Some d ->
  d !! "device_id"%string = Some device_id ->
  d !! "term_id"%string = Some term_id ->
  d !! "item_id"%string = Some item_id ->
  let found :=
    APIServer.exists_key db ("HS:DEVICE:" +:+ device_id)
    && APIServer.exists_key db ("HS:TERM:" +:+ term_id)
    && APIServer.exists_key db ("HS:ITEM:" +:+ item_id)
    && APIServer.exists_key db ("HS:TERM_ITEM:" +:+ term_id +:+ ":" +:+ item_id) in
  let res := APIServer.device_call db request answer in
  (found = false -> res.1 = db /\ exists t, res.2 = APIServer.Plain 404 t) /\
  (found = true ->
     APIServer.channels res.1 =
       APIServer.channels db ++ [("CHANNEL:DEVICE_CALL"%string, APIServer.req_body request)] /\
     APIServer.hashes res.1 = APIServer.hashes db /\
     APIServer.sets res.1 = APIServer.sets db /\
     res.2 = match answer with
             | Some rst => APIServer.JsonText rst
             | None => APIServer.Plain 400 "exception"
             end).
Proof.
  intros Hj H1 H2 H3 found res. subst found res.
  unfold APIServer.device_call. rewrite Hj, H1, H2, H3.
  destruct (APIServer.exists_key db ("HS:DEVICE:" +:+ device_id)); cbn;
    [|split; [intros _; split; [done|by eexists]|done]].
  destruct (APIServer.exists_key db ("HS:TERM:" +:+ term_id)); cbn;
    [|split; [intros _; split; [done|by eexists]|done]].
  destruct (APIServer.exists_key db ("HS:ITEM:" +:+ item_id)); cbn;
    [|split; [intros _; split; [done|by eexists]|done]].
  destruct (APIServer.exists_key db _); cbn;
    [|split; [intros _; split; [done|by eexists]|done]].
  split; [done|intros _]. by destruct answer.
Qed.

Lemma device_call_publishes_once_witness :
  APIServer.channels (APIServer.device_call bound_db call_request None).1 =
    [("CHANNEL:DEVICE_CALL"%string, "{device_id: 7, term_id: 1, item_id: 3}"%string)] /\
  (APIServer.device_call bound_db call_request None).2 = APIServer.Plain 400 "exception".
Proof.
  pose proof (device_call_publishes_once bound_db call_request
                (<["device_id" := "7"]> (<["term_id" := "1"]> (<["item_id" := "3"]> ∅)))
                "7" "1" "3" None) as H.
  cbv zeta in H. destruct H as [_ H]; try reflexivity.
  destruct H as (Hc & _ & _ & Hr); [reflexivity|]. split; [exact Hc|exact Hr].
Defined.

(** * User commands, end to end *)

(** The first command of an idle session on a working connection. *)
Lemma send_command_first st s r a :
  healthy st = true -> send_list st = [] -> asdu_Cause a = Cause.act ->
  let f := FrameI (ssn st) (rsn st) a in
  let st' := send_frame st (Some (FrameI s r a)) true in
  healthy st' = true /\ send_list st' = [f] /\ wire st' = wire st ++ [f] /\
  rsn st' = rsn st /\ w st' = 0 /\ processed st' = processed st /\
  ssn st' = (if ssn st <? 32767 then ssn st + 1 else 0).
Proof.
  intros Hh Hl Ha f st'. subst f st'. unfold healthy in *.
  destruct (writer st) as [wr|] eqn:Hw; [|done].
  destruct (wr_broken wr) eqn:Hb; [done|].
  unfold send_frame, or_reconnect, send_frame_try.
  rewrite Ha, Z.eqb_refl, Hl. cbn [negb orb andb is_nil].
  rewrite stop_timer_alt. unfold write_frame. cbn. rewrite Hw, Hb. cbn.
  unfold start_timer, create_task, call_later, inc_ssn. norm.
  by rewrite ?Hw, ?Hb, ?Hl.
Qed.

Lemma is_measurement_req a :
  asdu_Cause a = Cause.req ->
  in_range TYP.M_SP_NA_1 TYP.M_EP_TD_1 (asdu_TYP a) = true ->
  is_measurement a = Some true.
Proof. intros Ha Ht. unfold is_measurement. by rewrite Ha, Ht. Qed.

Lemma method_of_req a : asdu_Cause a = Cause.req -> method_of a = MCall.
Proof. intros Ha. unfold method_of. by rewrite Ha. Qed.

(** A read call, from the request to the published value.  On an idle
    session with a working connection the read command is written at
    once; when the peer answers with a measurement of cause [req], the
    values are handed on as a "call" result, and the task spawned for
    the answer removes the command from [send_list], leaving T1
    stopped. *)
Theorem read_call_round_trip (st : Device) (protocol_code r now : Z) (a : Asdu)
    (pairs : list (Z * Z * Z)) :
  healthy st = true ->
  send_list st = [] ->
  asdu_Cause a = Cause.req ->
  in_range TYP.M_SP_NA_1 TYP.M_EP_TD_1 (asdu_TYP a) = true ->
  collect_pairs a now 0 (data a) = Some pairs ->
  let st1 := send_frame st (Some (prepare_call_frame st protocol_code)) true in
  r <= ssn st1 ->
  let answer := FrameI (rsn st) r a in
  let st2 := receive st1 (GotFrame answer) now in
  let st3 := check_to_send st2 (Some answer) in
  emitted st st3 = [prepare_call_frame st protocol_code] /\
  processed st3 = processed st ++ [(MCall, list_to_set pairs)] /\
  send_list st2 = [prepare_call_frame st protocol_code] /\
  send_list st3 = [] /\ t1 st3 = None /\ rsn st3 = rsn st + 1.
Proof.
  intros Hh Hl Ha Hty Hcp st1 Hr answer st2 st3.
  set (call := prepare_call_frame st protocol_code) in *.
  assert (Hcall : exists c, call = FrameI (ssn st) (rsn st) c /\ asdu_Cause c = Cause.act /\
                            asdu_TYP c = TYP.C_RD_NA_1) by (by eexists).
  destruct Hcall as (c & Hcall & Hcc & Hct). clearbody call.
  assert (H1 : healthy st1 = true /\ send_list st1 = [call] /\ wire st1 = wire st ++ [call] /\
               rsn st1 = rsn st /\ w st1 = 0 /\ processed st1 = processed st).
  { subst st1. rewrite Hcall.
    destruct (send_command_first st (ssn st) (rsn st) c Hh Hl Hcc)
      as (A & B & C & D & E & F & _). done. }
  destruct H1 as (Hh1 & Hl1 & Hwi1 & Hr1 & Hw1 & Hp1). clearbody st1.
  assert (H2 : healthy st2 = true /\ send_list st2 = [call] /\ wire st2 = wire st1 /\
               processed st2 = processed st ++ [(MCall, list_to_set pairs)] /\
               rsn st2 = rsn st + 1).
  { subst st2 answer. rewrite <- Hr1. rewrite receive_accept by done. cbv zeta.
    set (st0 := create_task _ (receive_head st1)).
    assert (H0 : healthy st0 = true /\ send_list st0 = send_list st1 /\
                 wire st0 = wire st1 /\ processed st0 = processed st1).
    { subst st0. unfold receive_head, start_timer, create_task, call_later, healthy. by norm. }
    destruct H0 as (Hh0 & Hl0 & Hwi0 & Hp0). clearbody st0.
    unfold handle_i, handle_i_try, or_reconnect.
    set (s2 := start_timer TimerT2 _).
    assert (H2 : healthy s2 = true /\ send_list s2 = [call] /\ wire s2 = wire st1 /\
                 processed s2 = processed st /\ rsn s2 = rsn st + 1 /\ w s2 = 1).
    { subst s2. unfold start_timer, call_later, healthy in *. norm.
      by rewrite Hl0, Hwi0, Hp0, Hl1, Hp1, Hr1, Hw1. }
    destruct H2 as (Hh2 & Hl2 & Hwi2 & Hp2 & Hr2 & Hw2). clearbody s2.
    rewrite Hw2, Ha, (is_measurement_req a Ha Hty), Hcp, (method_of_req a Ha).
    change (IECParam.W <=? 1) with false.
    change ((Cause.req =? Cause.actcon) || (Cause.req =? Cause.req)) with true.
    cbv iota. unfold create_task, call_later, process_data, healthy in *. norm.
    by rewrite Hl2, Hwi2, Hp2, Hr2, Hr1. }
  destruct H2 as (Hh2 & Hl2 & Hwi2 & Hp2 & Hr2). clearbody st2.
  subst st3. unfold check_to_send, check_to_send_try, or_reconnect, emitted.
  rewrite stop_timer_alt. cbn. rewrite Hl2. subst answer. rewrite Hcall. cbn.
  rewrite Ha, Hct. cbn. rewrite orb_true_r.
  unfold send_head, popleft. cbn. rewrite Hl2. cbn.
  rewrite Hwi2, Hwi1, ?Hcall, drop_app_length, Hp2, Hr2.
  by repeat split.
Qed.

Lemma read_call_round_trip_witness :
  processed
    (check_to_send
       (receive (send_frame started (Some (prepare_call_frame started 200)) true)
          (GotFrame (read_response (rsn started) 1 200 42)) 5)
       (Some (read_response (rsn started) 1 200 42))) =
    processed started ++ [(MCall, list_to_set [(5, 200, 42)])].
Proof.
  pose proof (read_call_round_trip started 200 1 5
                {| asdu_TYP := TYP.M_ME_NA_1; asdu_SQ := 0; asdu_SQ_COUNT := 1;
                   asdu_Cause := Cause.req; StartAddress := None; data := [point 200 42] |}
                [(5, 200, 42)]) as H.
  cbv zeta in H. apply H; first [reflexivity | by vm_compute].
Defined.

Lemma processed_disconnect st r : processed (disconnect st r) = processed st.
Proof.
  unfold disconnect. norm. unfold disconnect_arm.
  destruct r, (reconnect_handler st) eqn:Hr; cbn; by rewrite ?Hr.
Qed.

Lemma processed_send_frame_try st f c :
  processed (outcome_state (send_frame_try st f c)) = processed st.
Proof.
  unfold send_frame_try, write_frame.
  destruct f as [u|r|s r a]; cbn; rewrite ?stop_timer_alt; cbn;
    repeat match goal with
           | |- context [match writer st with _ => _ end] => destruct (writer st) as [wr|]; cbn
           | |- context [if ?c then _ else _] => destruct c; cbn
           end;
    unfold start_timer, create_task, call_later, inc_ssn; norm; done.
Qed.

Lemma processed_send_frame st f c : processed (send_frame st f c) = processed st.
Proof.
  destruct f as [f|]; unfold send_frame; [|done].
  pose proof (processed_send_frame_try st f c) as H.
  destruct (send_frame_try st f c) as [s|s]; cbn in *; [done|].
  by rewrite processed_disconnect.
Qed.

Lemma is_measurement_select a :
  asdu_Cause a = Cause.actcon -> is_command a = true -> first_SE a = Some 1 ->
  is_measurement a = Some false.
Proof. intros Ha Hc Hse. unfold is_measurement. by rewrite Ha, Hc, Hse. Qed.

Lemma send_act_queued st s r a :
  asdu_Cause a = Cause.act -> send_list st <> [] ->
  send_frame st (Some (FrameI s r a)) true = set_send_list (send_list st ++ [FrameI s r a]) st.
Proof.
  intros Ha Hl. unfold send_frame, send_frame_try, or_reconnect.
  rewrite Ha, Z.eqb_refl. cbn [negb orb andb].
  by destruct (send_list st).
Qed.

(** Select before operate.  On an idle session with a working
    connection the select command ([SE] = 1) is written at once.  When
    the peer confirms it ([actcon], [SE] = 1), the execute command (cause
    [act], [SE] = 0) is queued behind the select; the task spawned for
    the confirmation then removes the select and writes the execute
    command with the current sequence numbers.  Nothing is published. *)
Theorem select_before_operate (st : Device) (code_type protocol_code value r now : Z)
    (a : Asdu) :
  healthy st = true ->
  send_list st = [] ->
  asdu_Cause a = Cause.actcon -> asdu_TYP a = code_type ->
  is_command a = true -> first_SE a = Some 1 ->
  let select := prepare_ctrl_frame st code_type protocol_code value in
  let st1 := send_frame st (Some select) true in
  r <= ssn st1 ->
  let ack := FrameI (rsn st) r a in
  let st2 := receive st1 (GotFrame ack) now in
  let st3 := check_to_send st2 (Some ack) in
  let execute := FrameI (ssn st1) (rsn st + 1) (execute_of a) in
  send_list st2 = [select; FrameI (rsn st) r (execute_of a)] /\
  emitted st st2 = [select] /\
  emitted st st3 = [select; execute] /\
  send_list st3 = [execute] /\
  processed st3 = processed st.
Proof.
  intros Hh Hl Ha Hty Hcmd Hse select st1 Hr ack st2 st3 execute.
  assert (Hsel : exists c, select = FrameI (ssn st) (rsn st) c /\ asdu_Cause c = Cause.act /\
                           asdu_TYP c = code_type) by (by eexists).
  destruct Hsel as (c & Hsel & Hcc & Hct). clearbody select.
  assert (H1 : healthy st1 = true /\ send_list st1 = [select] /\
               wire st1 = wire st ++ [select] /\
               rsn st1 = rsn st /\ w st1 = 0 /\ processed st1 = processed st).
  { subst st1. rewrite Hsel.
    destruct (send_command_first st (ssn st) (rsn st) c Hh Hl Hcc)
      as (A & B & C & D & E & F & _). done. }
  destruct H1 as (Hh1 & Hl1 & Hwi1 & Hr1 & Hw1 & Hp1). clearbody st1.
  assert (H2 : healthy st2 = true /\
               send_list st2 = [select; FrameI (rsn st) r (execute_of a)] /\
               wire st2 = wire st1 /\ processed st2 = processed st /\
               rsn st2 = rsn st + 1 /\ ssn st2 = ssn st1).
  { subst st2 ack. rewrite <- Hr1. rewrite receive_accept by done. cbv zeta.
    set (st0 := create_task _ (receive_head st1)).
    assert (H0 : healthy st0 = true /\ send_list st0 = send_list st1 /\
                 wire st0 = wire st1 /\ processed st0 = processed st1 /\
                 ssn st0 = ssn st1).
    { subst st0. unfold receive_head, start_timer, create_task, call_later, healthy. by norm. }
    destruct H0 as (Hh0 & Hl0 & Hwi0 & Hp0 & Hs0). clearbody st0.
    unfold handle_i, handle_i_try, or_reconnect.
    set (s2 := start_timer TimerT2 _).
    assert (H2 : healthy s2 = true /\ send_list s2 = [select] /\ wire s2 = wire st1 /\
                 processed s2 = processed st /\ rsn s2 = rsn st + 1 /\ w s2 = 1 /\
                 ssn s2 = ssn st1).
    { subst s2. unfold start_timer, call_later, healthy in *. norm.
      by rewrite Hl0, Hwi0, Hp0, Hl1, Hp1, Hr1, Hw1, Hs0. }
    destruct H2 as (Hh2 & Hl2 & Hwi2 & Hp2 & Hr2 & Hw2 & Hs2). clearbody s2.
    rewrite Hw2, Ha, (is_measurement_select a Ha Hcmd Hse), Hcmd, Hse.
    change (IECParam.W <=? 1) with false.
    change ((Cause.actcon =? Cause.actcon) || (Cause.actcon =? Cause.req)) with true.
    change (Cause.actcon =? Cause.actcon) with true. change (1 =? 1) with true.
    cbv iota.
    set (s3 := create_task _ (stop_timer TimerT1 s2)).
    assert (H3 : healthy s3 = true /\ send_list s3 = [select] /\ wire s3 = wire st1 /\
                 processed s3 = processed st /\ rsn s3 = rsn st + 1 /\ ssn s3 = ssn st1).
    { subst s3. unfold create_task, call_later, healthy in *. norm.
      by rewrite Hl2, Hwi2, Hp2, Hr2, Hs2. }
    destruct H3 as (Hh3 & Hl3 & Hwi3 & Hp3 & Hr3 & Hs3). clearbody s3.
    rewrite send_act_queued by (done || by rewrite Hl3).
    unfold healthy in *. cbn. rewrite Hl3, Hwi3, Hp3, Hr3, Hs3, Hr1. by repeat split. }
  destruct H2 as (Hh2 & Hl2 & Hwi2 & Hp2 & Hr2 & Hs2). clearbody st2.
  assert (H3 : send_list st3 = [execute] /\ wire st3 = wire st2 ++ [execute] /\
               processed st3 = processed st).
  { subst st3 ack. unfold check_to_send, check_to_send_try, or_reconnect.
    rewrite stop_timer_alt. cbn. rewrite Hl2, Hsel. cbn.
    rewrite Hct, Hty, Z.eqb_refl. cbn.
    set (s := set_t1 None _).
    assert (Hs : healthy s = true /\ send_list s = [select; FrameI (rsn st) r (execute_of a)] /\
                 wire s = wire st2 /\ processed s = processed st /\
                 stamp s (FrameI (rsn st) r (execute_of a)) = execute).
    { subst s execute. unfold healthy in *. cbn. by rewrite Hl2, Hp2, Hr2, Hs2. }
    destruct Hs as (Hhs & Hls & Hws & Hps & Hst). clearbody s.
    destruct (pop_and_send s _ _ Hhs Hls) as (A & B).
    rewrite A, B, Hst, Hws. repeat split.
    unfold send_head, popleft. cbn. rewrite Hls. cbn.
    set (s' := set_send_list _ s).
    pose proof (processed_send_frame s' (Some (FrameI (rsn st) r (execute_of a))) false) as Hp'.
    change (processed s') with (processed s) in Hp'. rewrite Hps in Hp'.
    by destruct (send_list (send_frame s' _ false)). }
  destruct H3 as (Hl3 & Hwi3 & Hp3).
  unfold emitted. rewrite Hwi3, Hwi2, Hwi1, <- !app_assoc, !drop_app_length.
  by repeat split.
Qed.

Lemma select_before_operate_witness :
  send_list
    (check_to_send
       (receive (send_frame started (Some (prepare_ctrl_frame started TYP.C_SC_NA_1 300 1)) true)
          (GotFrame (FrameI (rsn started) 1 select_ack)) 5)
       (Some (FrameI (rsn started) 1 select_ack))) =
    [FrameI (ssn (send_frame started
                    (Some (prepare_ctrl_frame started TYP.C_SC_NA_1 300 1)) true))
       (rsn started + 1) (execute_of select_ack)].
Proof.
  pose proof (select_before_operate started TYP.C_SC_NA_1 300 1 1 5 select_ack) as H.
  cbv zeta in H. apply H; first [reflexivity | by vm_compute].
Defined.

(** ** Replies to the peer's U-frames *)

(** The replies of [handle_u] go through the checked send path.  While a
    command waits for its confirmation, a TESTFR_ACT from the peer is
    therefore ignored altogether: no TESTFR_CON is written or queued and
    the session is left exactly as it was.  On an idle session with a
    working connection the reply is written and nothing is queued. *)
Theorem testfr_act_reply_needs_idle_queue (st : Device) :
  let st' := handle_u st TESTFR_ACT in
  (forall s r a l, send_list st = FrameI s r a :: l -> st' = st) /\
  (healthy st = true -> send_list st = [] ->
     emitted st st' = [FrameU TESTFR_CON] /\ send_list st' = [] /\ t1 st' = t1 st).
Proof.
  intros st'. subst st'. unfold handle_u. cbv zeta. split.
  - intros s r a l Hl. unfold drop_own. rewrite Hl.
    unfold send_frame, send_frame_try, or_reconnect, init_frame_u. cbn. by rewrite Hl.
  - intros Hh Hl. unfold drop_own. rewrite Hl.
    unfold healthy in Hh.
    destruct (writer st) as [wr|] eqn:Hw; [|done].
    destruct (wr_broken wr) eqn:Hb; [done|].
    unfold send_frame, send_frame_try, or_reconnect, init_frame_u, write_frame, emitted.
    cbn. rewrite Hl. cbn. rewrite Hw, Hb. cbn.
    unfold create_task, call_later. cbn.
    by rewrite drop_app_length, Hl.
Qed.

Lemma testfr_act_reply_needs_idle_queue_witness :
  send_list polling =
    init_frame_i 0 0 TYP.C_CS_NA_1 Cause.act
      :: [init_frame_i 1 0 TYP.C_IC_NA_1 Cause.act; init_frame_i 1 0 TYP.C_CI_NA_1 Cause.act] /\
  handle_u polling TESTFR_ACT = polling.
Proof.
  assert (Hl : send_list polling =
               init_frame_i 0 0 TYP.C_CS_NA_1 Cause.act
                 :: [init_frame_i 1 0 TYP.C_IC_NA_1 Cause.act;
                     init_frame_i 1 0 TYP.C_CI_NA_1 Cause.act]) by reflexivity.
  split; [exact Hl|].
  pose proof (testfr_act_reply_needs_idle_queue polling) as H. cbv zeta in H.
  destruct H as [H _]. exact (H _ _ _ _ Hl).
Defined.
